(** * GridGen: the scenario validation of the frontend API service

    A shallow embedding of [frontend/src/services/ApiService.js] (the
    rule-based validation) and of the second variant of the same service
    (the one that posts to the backend and mocks the validation results),
    with the properties of the validation pipeline stated over it; then of
    [generateScenario] and of the progress and result handling of the
    generation page that calls it.

    Numbers.  Numbers are rationals: a number of a scenario document and a
    decimal literal of the source ([0.95], [1.05], [0.92]) are each the
    decimal that writes them, and the order tests of the source are the
    order of [Q].  The rounding of a decimal to a binary double is not
    modelled; it is monotone, so a test of the source and the test on the
    rationals can differ only where two different decimals round to the same
    double.  [loads.length / generators.length] is a quotient of two array
    lengths; both are below 2^32, where the rounded quotient exceeds 2
    exactly when the exact one does.

    Fields.  A field that may be missing from a document is an [option];
    a field that is present has the type the data model of the scenario
    gives it (a number for [vm], a string for [scenario_id], [id] and
    [device_type], an array of objects for the three collections).
    [a || b] of the source is modelled on options with the truthiness of the
    type at hand: a number is truthy when it is not zero, a string when it
    is not empty, an object or an array always. *)

From Stdlib Require Import List String Ascii Bool Arith ZArith QArith Lia.
From Stdlib Require Import Permutation.
Import ListNotations.

Local Open Scope string_scope.

(** ** JavaScript helpers *)

Module JS.

(** [a < b] on numbers. *)
Definition ltb (a b : Q) : bool := negb (Qle_bool b a).

(** Truthiness of a number: [0] is falsy. *)
Definition truthy_num (x : Q) : bool := negb (Qeq_bool x 0).

(** Truthiness of a string: [''] is falsy. *)
Definition truthy_str (s : string) : bool :=
  match s with
  | EmptyString => false
  | String _ _ => true
  end.

(** [a || b] where [a] may be undefined and both are numbers. *)
Definition or_num (a : option Q) (b : option Q) : option Q :=
  match a with
  | Some x => if truthy_num x then a else b
  | None => b
  end.

(** [a || b] where [a] may be undefined and both are strings. *)
Definition or_str (a : option string) (b : option string) : option string :=
  match a with
  | Some x => if truthy_str x then a else b
  | None => b
  end.

(** [a || d] where [a] is an object or an array when present. *)
Definition or_obj {A : Type} (a : option A) (d : A) : A :=
  match a with
  | Some x => x
  | None => d
  end.

(** [String.prototype.includes]: [t] occurs somewhere in [s]. *)
Fixpoint includes (s t : string) : bool :=
  if String.prefix t s then true
  else match s with
       | EmptyString => false
       | String _ s' => includes s' t
       end.

End JS.

(** ** The scenario document *)

Record InitialStatus := mkInitialStatus {
  is_vm : option Q
}.

Record Bus := mkBus {
  b_id : option string;
  b_vm : option Q;
  b_initial_status : option InitialStatus
}.

Record AcLine := mkAcLine {
  l_id : option string
}.

Record Device := mkDevice {
  d_id : option string;
  d_device_type : option string
}.

Record Network := mkNetwork {
  n_bus : option (list Bus);
  n_ac_line : option (list AcLine);
  n_simple_dispatchable_device : option (list Device)
}.

Record Scenario := mkScenario {
  s_scenario_id : option string;
  s_id : option string;
  s_network : option Network
}.

(** The empty object [{}] read as a network. *)
Definition empty_network : Network := mkNetwork None None None.

(** ** The validation result *)

Record VoltageViolation := mkVoltageViolation {
  vv_bus_id : string;
  vv_type : string;
  vv_value : Q;
  vv_limit : Q
}.

Record LineViolation := mkLineViolation {
  lv_line_id : string;
  lv_type : string;
  lv_value : Q;
  lv_limit : Q
}.

Record PhysicsValidation := mkPhysicsValidation {
  pv_is_valid : bool;
  pv_voltage_violations : list VoltageViolation;
  pv_line_violations : list LineViolation
}.

Record OpendssValidation := mkOpendssValidation {
  ov_success : bool;
  ov_voltage_violations : list VoltageViolation;
  ov_thermal_violations : list LineViolation
}.

Record ValidationResult := mkValidationResult {
  scenario_id : string;
  is_valid : bool;
  physics_validation : PhysicsValidation;
  opendss_validation : OpendssValidation;
  opendss_success : bool
}.

(** ** [_validateScenarioData] *)

(** [d.device_type === tag] *)
Definition device_type_is (tag : string) (d : Device) : bool :=
  match d_device_type d with
  | Some t => String.eqb t tag
  | None => false
  end.

(** [bus.initial_status?.vm] *)
Definition initial_status_vm (bus : Bus) : option Q :=
  match b_initial_status bus with
  | Some st => is_vm st
  | None => None
  end.

(** [bus.initial_status?.vm || bus.vm || 1.0] *)
Definition bus_voltage (bus : Bus) : Q :=
  match JS.or_num (JS.or_num (initial_status_vm bus) (b_vm bus)) (Some 1.0%Q) with
  | Some v => v
  | None => 1.0%Q
  end.

(** [voltage < 0.95 || voltage > 1.05] *)
Definition out_of_range (voltage : Q) : bool :=
  JS.ltb voltage 0.95%Q || JS.ltb 1.05%Q voltage.

(** The loop over the buses, with its [break].  It returns the flag and the
    buses whose voltage it has read, in order: the flag on entry is kept
    unless some bus is out of range, and no bus after the first such bus is
    read. *)
Fixpoint bus_loop (buses : list Bus) (isValid : bool) : bool * list Bus :=
  match buses with
  | [] => (isValid, [])
  | bus :: rest =>
      let voltage := bus_voltage bus in
      if out_of_range voltage then (false, [bus])
      else let (isValid', read) := bus_loop rest isValid in (isValid', bus :: read)
  end.

Definition scenario_network (scenario : Scenario) : Network :=
  JS.or_obj (s_network scenario) empty_network.

Definition scenario_buses (scenario : Scenario) : list Bus :=
  JS.or_obj (n_bus (scenario_network scenario)) [].

Definition scenario_devices (scenario : Scenario) : list Device :=
  JS.or_obj (n_simple_dispatchable_device (scenario_network scenario)) [].

Definition scenario_generators (scenario : Scenario) : list Device :=
  filter (device_type_is "producer") (scenario_devices scenario).

Definition scenario_loads (scenario : Scenario) : list Device :=
  filter (device_type_is "consumer") (scenario_devices scenario).

(** [scenario.scenario_id || scenario.id || ''] *)
Definition scenario_ident (scenario : Scenario) : string :=
  match JS.or_str (JS.or_str (s_scenario_id scenario) (s_id scenario)) (Some "") with
  | Some s => s
  | None => ""
  end.

(** [a.length / b.length] *)
Definition length_ratio {A B : Type} (a : list A) (b : list B) : Q :=
  (inject_Z (Z.of_nat (List.length a)) / inject_Z (Z.of_nat (List.length b)))%Q.

Definition _validateScenarioData (scenario : Scenario) : bool :=
  let network := JS.or_obj (s_network scenario) empty_network in
  let buses := JS.or_obj (n_bus network) [] in
  let lines := JS.or_obj (n_ac_line network) [] in
  let devices := JS.or_obj (n_simple_dispatchable_device network) [] in
  let generators := filter (device_type_is "producer") devices in
  let loads := filter (device_type_is "consumer") devices in
  let isValid := true in
  (* Criterion 1 *)
  let isValid := if (List.length generators <? 1)%nat then false else isValid in
  (* Criterion 2 *)
  let isValid :=
    if (0 <? List.length generators)%nat && JS.ltb 2 (length_ratio loads generators)
    then false else isValid in
  (* Criterion 3 *)
  let id := scenario_ident scenario in
  let isValid :=
    if JS.includes id "invalid" || JS.includes id "stress" || JS.includes id "overload"
    then false else isValid in
  (* Criterion 4 *)
  let isValid := fst (bus_loop buses isValid) in
  isValid.


(** ** The asynchronous calls

    An [async] function runs against a backend and the generator of
    [Math.random]; it appends to the record of what it did (requests sent,
    console lines written) and either returns or throws. *)

Inductive Exn :=
| RequestFailed (url : string)   (* the promise of an axios call is rejected *)
| TypeError (msg : string).      (* a property of [null] is read *)

Inductive Event :=
| HttpGet (url : string)
| HttpPost (url : string)
| ConsoleError (msg : string) (error : Exn)
| ConsoleWarn (msg : string).

(** What the outside answers.  [None] is a rejected request; the body of
    [GET /scenarios/:id] may itself be [null]. *)
Record World := mkWorld {
  get_scenario : string -> option (option Scenario);
  get_validation : string -> option ValidationResult;
  post_validate : string -> option Scenario -> option ValidationResult;
  random : nat -> Q
}.

Record Run := mkRun {
  events : list Event;
  draws : nat
}.

Definition M (A : Type) : Type := World -> Run -> (A + Exn) * Run.

Definition ret {A : Type} (a : A) : M A := fun _ r => (inl a, r).

Definition throw {A : Type} (e : Exn) : M A := fun _ r => (inr e, r).

Definition bind {A B : Type} (m : M A) (k : A -> M B) : M B :=
  fun w r =>
    match m w r with
    | (inl a, r') => k a w r'
    | (inr e, r') => (inr e, r')
    end.

(** [try { m } catch (error) { h error }] *)
Definition try_catch {A : Type} (m : M A) (h : Exn -> M A) : M A :=
  fun w r =>
    match m w r with
    | (inl a, r') => (inl a, r')
    | (inr e, r') => h e w r'
    end.

Definition emit (e : Event) : M unit :=
  fun _ r => (inl tt, mkRun (events r ++ [e]) (draws r)).

Declare Scope async_scope.
Delimit Scope async_scope with async.
Notation "x <- m ;; k" := (bind m (fun x => k))
  (at level 61, m at next level, right associativity) : async_scope.
Notation "m ;; k" := (bind m (fun _ => k))
  (at level 61, right associativity) : async_scope.
Local Open Scope async_scope.

Definition console_error (msg : string) (error : Exn) : M unit :=
  emit (ConsoleError msg error).

Definition console_warn (msg : string) : M unit :=
  emit (ConsoleWarn msg).

(** [Math.random()] *)
Definition math_random : M Q :=
  fun w r => (inl (random w (draws r)), mkRun (events r) (S (draws r))).

(** [(await api.get(`/scenarios/${id}`)).data] *)
Definition api_get_scenario (id : string) : M (option Scenario) :=
  let url := "/scenarios/" ++ id in
  emit (HttpGet url) ;;
  fun w => match get_scenario w id with
           | Some data => ret data w
           | None => throw (RequestFailed url) w
           end.

(** [(await api.get(`/scenarios/${scenarioId}/validation`)).data] *)
Definition api_get_validation (scenarioId : string) : M ValidationResult :=
  let url := "/scenarios/" ++ scenarioId ++ "/validation" in
  emit (HttpGet url) ;;
  fun w => match get_validation w scenarioId with
           | Some data => ret data w
           | None => throw (RequestFailed url) w
           end.

(** [(await api.post('/scenarios/validate', { scenario_id, scenario })).data] *)
Definition api_post_validate (scenarioId : string) (scenario : option Scenario)
  : M ValidationResult :=
  let url := "/scenarios/validate" in
  emit (HttpPost url) ;;
  fun w => match post_validate w scenarioId scenario with
           | Some data => ret data w
           | None => throw (RequestFailed url) w
           end.

(** [getScenarioById], the same text in both variants of the service. *)
Definition getScenarioById (id : string) : M (option Scenario) :=
  try_catch
    (response <- api_get_scenario id ;;
     ret response)
    (fun error =>
       console_error ("Error fetching scenario " ++ id ++ ":") error ;;
       throw error).

(** [this._validateScenarioData(scenario)] on a fetched body: on [null] the
    first statement, [scenario.network], throws. *)
Definition call_validateScenarioData (scenario : option Scenario) : M bool :=
  match scenario with
  | Some s => ret (_validateScenarioData s)
  | None => throw (TypeError "Cannot read properties of null (reading 'network')")
  end.

(** ** The rule-based service, [ApiService.js] *)

Module ApiService.

(** The [try] block of [validateScenario]. *)
Definition validateScenario_try (scenarioId : string) (scenarioData : option Scenario)
  : M ValidationResult :=
    (match scenarioData with
     | Some data =>
         let isValid := _validateScenarioData data in
         ret {| scenario_id := scenarioId;
                is_valid := isValid;
                physics_validation :=
                  {| pv_is_valid := isValid;
                     pv_voltage_violations :=
                       if isValid then []
                       else [ {| vv_bus_id := "Bus1"; vv_type := "Low voltage";
                                 vv_value := 0.92; vv_limit := 0.95 |} ];
                     pv_line_violations :=
                       if isValid then []
                       else [ {| lv_line_id := "Line1-2"; lv_type := "Flow exceeds limit";
                                 lv_value := 320; lv_limit := 300 |} ] |};
                opendss_validation :=
                  {| ov_success := isValid;
                     ov_voltage_violations := [];
                     ov_thermal_violations := [] |};
                opendss_success := isValid |}
     | None =>
         scenario <- getScenarioById scenarioId ;;
         isValid <- call_validateScenarioData scenario ;;
         ret {| scenario_id := scenarioId;
                is_valid := isValid;
                physics_validation :=
                  {| pv_is_valid := isValid;
                     pv_voltage_violations :=
                       if isValid then []
                       else [ {| vv_bus_id := "Bus1"; vv_type := "Low voltage";
                                 vv_value := 0.92; vv_limit := 0.95 |} ];
                     pv_line_violations :=
                       if isValid then []
                       else [ {| lv_line_id := "Line1-2"; lv_type := "Flow exceeds limit";
                                 lv_value := 320; lv_limit := 300 |} ] |};
                opendss_validation :=
                  {| ov_success := isValid;
                     ov_voltage_violations := [];
                     ov_thermal_violations := [] |};
                opendss_success := isValid |}
     end).

(** [validateScenario]: the block above and its [catch]. *)
Definition validateScenario (scenarioId : string) (scenarioData : option Scenario)
  : M ValidationResult :=
  try_catch
    (validateScenario_try scenarioId scenarioData)
    (fun error =>
       console_error ("Error validating scenario " ++ scenarioId ++ ":") error ;;
       ret {| scenario_id := scenarioId;
              is_valid := false;
              physics_validation :=
                {| pv_is_valid := false;
                   pv_voltage_violations :=
                     [ {| vv_bus_id := "Error"; vv_type := "Error validating";
                          vv_value := 0; vv_limit := 0 |} ];
                   pv_line_violations := [] |};
              opendss_validation :=
                {| ov_success := false;
                   ov_voltage_violations := [];
                   ov_thermal_violations := [] |};
              opendss_success := false |}).

Definition getValidationResults (scenarioId : string) : M ValidationResult :=
  try_catch
    (response <- api_get_validation scenarioId ;;
     ret response)
    (fun error =>
       console_warn ("Validation endpoint not available for " ++ scenarioId
                     ++ ", using simulated validation") ;;
       scenario <-
         try_catch
           (getScenarioById scenarioId)
           (fun err =>
              console_warn ("Could not fetch scenario data for " ++ scenarioId) ;;
              ret None) ;;
       let isValid := true in
       let isValid :=
         if JS.includes scenarioId "invalid" || JS.includes scenarioId "stress"
            || JS.includes scenarioId "overload"
         then false else isValid in
       let isValid :=
         match scenario with
         | Some s => _validateScenarioData s
         | None => isValid
         end in
       ret {| scenario_id := scenarioId;
              is_valid := isValid;
              physics_validation :=
                {| pv_is_valid := isValid;
                   pv_voltage_violations :=
                     if isValid then []
                     else [ {| vv_bus_id := "Bus1"; vv_type := "Low voltage";
                               vv_value := 0.92; vv_limit := 0.95 |} ];
                   pv_line_violations :=
                     if isValid then []
                     else [ {| lv_line_id := "Line1-2"; lv_type := "Flow exceeds limit";
                               lv_value := 320; lv_limit := 300 |} ] |};
              opendss_validation :=
                {| ov_success := isValid;
                   ov_voltage_violations := [];
                   ov_thermal_violations := [] |};
              opendss_success := isValid |}).

End ApiService.

(** ** The second variant of the service: validation is posted to the
    backend, and the validation results are mocked when the endpoint is
    missing. *)

Module ApiServiceAlt.

(** The [try] block of [validateScenario]. *)
Definition validateScenario_try (scenarioId : string) : M ValidationResult :=
  scenario <- getScenarioById scenarioId ;;
  response <- api_post_validate scenarioId scenario ;;
  ret response.

(** [validateScenario]: the block above and its [catch]. *)
Definition validateScenario (scenarioId : string) : M ValidationResult :=
  try_catch
    (validateScenario_try scenarioId)
    (fun error =>
       console_error ("Error validating scenario " ++ scenarioId ++ ":") error ;;
       throw error).

Definition getValidationResults (scenarioId : string) : M ValidationResult :=
  try_catch
    (response <- api_get_validation scenarioId ;;
     ret response)
    (fun error =>
       console_warn ("Validation endpoint not available for " ++ scenarioId
                     ++ ", using mocked data") ;;
       r1 <- math_random ;;
       r2 <- math_random ;;
       ret {| scenario_id := scenarioId;
              is_valid := JS.ltb 0.3 r1;
              physics_validation :=
                {| pv_is_valid := JS.ltb 0.3 r2;
                   pv_voltage_violations := [];
                   pv_line_violations := [] |};
              opendss_validation :=
                {| ov_success := true;
                   ov_voltage_violations := [];
                   ov_thermal_violations := [] |};
              opendss_success := true |}).

End ApiServiceAlt.

(** ** [generateScenario], the same text in both variants of the service

    The function shapes the request, posts it and hands back the body of
    the answer; a rejected request is logged and thrown again.  The
    parameters are an object of which only [include_context] and
    [similarity_threshold] are read; the other fields, and the bodies of the
    answers, are carried as they are.  A console line is recorded by its
    label. *)

Module GenerateScenario.

Section WithBodies.

Context {Extra Body : Type}.

Record Parameters := mkParameters {
  p_include_context : option bool;
  p_similarity_threshold : option Q;
  p_other : Extra
}.

Record RequestData := mkRequestData {
  rd_parameters : Parameters;
  rd_include_context : bool;
  rd_similarity_threshold : Q
}.

(** [error.response] of a rejected request. *)
Record ErrorResponse := mkErrorResponse {
  er_data : Body;
  er_status : nat;
  er_headers : Body
}.

(** What a rejected axios request throws: [error.response] is set when the
    server answered outside 2xx, [error.request] when a request was made. *)
Record AxiosError := mkAxiosError {
  ae_message : string;
  ae_response : option ErrorResponse;
  ae_request : bool
}.

Inductive ConsoleLine :=
| Log (label : string)
| Error (label : string).

(** The [requestData] of [generateScenario]. *)
Definition requestData (parameters : Parameters) : RequestData :=
  {| rd_parameters := parameters;
     rd_include_context :=
       match p_include_context parameters with
       | Some b => b
       | None => true
       end;
     rd_similarity_threshold :=
       match JS.or_num (p_similarity_threshold parameters) (Some 0.7%Q) with
       | Some v => v
       | None => 0.7%Q
       end |}.

(** [generateScenario], run against [post], the answer of
    [api.post('/scenarios/generate', requestData)]: the body of the response
    or the rejection.  It returns or throws, with the console lines
    written. *)
Definition generateScenario (post : RequestData -> Body + AxiosError)
           (parameters : Parameters) : (Body + AxiosError) * list ConsoleLine :=
  let console := [Log "Sending parameters to API:"] in
  let requestData := requestData parameters in
  let console := (console ++ [Log "Structured request data:"])%list in
  match post requestData with
  | inl data => (inl data, (console ++ [Log "API response:"])%list)
  | inr error =>
      let console := (console ++ [Error "Error generating scenario:"])%list in
      let console :=
        match ae_response error with
        | Some response =>
            (console ++ [Error "Response data:"; Error "Response status:";
                         Error "Response headers:"])%list
        | None =>
            if ae_request error
            then (console ++ [Error "No response received:"])%list
            else (console ++ [Error "Error message:"])%list
        end in
      (inr error, console)
  end.

End WithBodies.

Arguments Parameters : clear implicits.
Arguments RequestData : clear implicits.
Arguments ErrorResponse : clear implicits.
Arguments AxiosError : clear implicits.

End GenerateScenario.

(** ** The generation page

    The state of the page is its React state together with the timers that
    run and the call of [handleSubmit] that waits for the generator.  The
    form fields and the payload built from them are not part of this model:
    what the generator answers is an input of the transitions, and it is
    null or an object (an empty string or another falsy value that is not
    null is outside this model).  Each transition is one callback of the
    page. *)

Module GeneratePage.

(** What the generator hands back, as far as the page reads it. *)
Record Response := mkResponse {
  resp_id : option string;
  resp_error : option string
}.

Record Page := mkPage {
  advancedMode : bool;
  isGenerating : bool;
  progress : Z;
  activeTab : string;
  error : option string;
  result : option Response;
  intervals : list nat;        (* the intervals set and not yet cleared *)
  next_interval : nat;         (* the id the next [setInterval] returns *)
  awaiting : option nat        (* the interval of the [handleSubmit] at its [await] *)
}.

(** The initial values of the [useState] calls. *)
Definition initial : Page :=
  {| advancedMode := false;
     isGenerating := false;
     progress := 0;
     activeTab := "parameters";
     error := None;
     result := None;
     intervals := [];
     next_interval := 0;
     awaiting := None |}.

(** [clearInterval(i)] *)
Definition clearInterval (i : nat) (l : list nat) : list nat :=
  List.remove Nat.eq_dec i l.

(** [handleSubmit] up to the call of the generator. *)
Definition handleSubmit_begin (s : Page) : Page :=
  let progressInterval := next_interval s in
  {| advancedMode := advancedMode s;
     isGenerating := true;
     progress := 10;
     activeTab := "progress";
     error := None;
     result := result s;
     intervals := (intervals s ++ [progressInterval])%list;
     next_interval := S progressInterval;
     awaiting := Some progressInterval |}.

(** The callback of the interval [progressInterval], once a second. *)
Definition progress_tick (progressInterval : nat) (s : Page) : Page :=
  let prev := progress s in
  if (90 <=? prev)%Z
  then {| advancedMode := advancedMode s;
          isGenerating := isGenerating s;
          progress := prev;
          activeTab := activeTab s;
          error := error s;
          result := result s;
          intervals := clearInterval progressInterval (intervals s);
          next_interval := next_interval s;
          awaiting := awaiting s |}
  else {| advancedMode := advancedMode s;
          isGenerating := isGenerating s;
          progress := prev + 10;
          activeTab := activeTab s;
          error := error s;
          result := result s;
          intervals := intervals s;
          next_interval := next_interval s;
          awaiting := awaiting s |}.

(** [err.message] of the TypeError thrown by [response.error] on a
    response that is null. *)
Definition null_response_message : string :=
  "Cannot read properties of null (reading 'error')".

(** [handleSubmit] from the answer of the generator on: the rest of the
    [try] block, the [catch] when [response.error] throws on a null
    response, and the [finally]. *)
Definition handleSubmit_resolved (progressInterval : nat)
           (response : option Response) (s : Page) : Page :=
  let intervals' := clearInterval progressInterval (intervals s) in
  match response with
  | Some r =>
      match JS.or_str (resp_error r) None with
      | Some e =>
          {| advancedMode := advancedMode s;
             isGenerating := false;
             progress := 100;
             activeTab := activeTab s;
             error := Some e;
             result := result s;
             intervals := intervals';
             next_interval := next_interval s;
             awaiting := None |}
      | None =>
          {| advancedMode := advancedMode s;
             isGenerating := false;
             progress := 100;
             activeTab := "result";
             error := error s;
             result := Some r;
             intervals := intervals';
             next_interval := next_interval s;
             awaiting := None |}
      end
  | None =>
      {| advancedMode := advancedMode s;
         isGenerating := false;
         progress := 100;
         activeTab := activeTab s;
         error := JS.or_str (Some null_response_message)
                            (Some "Failed to generate scenario");
         result := result s;
         intervals := intervals';
         next_interval := next_interval s;
         awaiting := None |}
  end.

(** [handleSubmit] when the generator throws: the [catch], with
    [err.message] as [message], and the [finally]. *)
Definition handleSubmit_rejected (message : option string) (s : Page) : Page :=
  {| advancedMode := advancedMode s;
     isGenerating := false;
     progress := progress s;
     activeTab := activeTab s;
     error := JS.or_str message (Some "Failed to generate scenario");
     result := result s;
     intervals := intervals s;
     next_interval := next_interval s;
     awaiting := None |}.

(** The [disabled] of the three tabs. *)
Definition tab_disabled (key : string) (s : Page) : bool :=
  if String.eqb key "progress" then negb (isGenerating s) && (progress s =? 0)%Z
  else if String.eqb key "result"
       then match result s with Some _ => false | None => true end
       else false.

(** [setActiveTab(key)] *)
Definition setActiveTab (key : string) (s : Page) : Page :=
  {| advancedMode := advancedMode s;
     isGenerating := isGenerating s;
     progress := progress s;
     activeTab := key;
     error := error s;
     result := result s;
     intervals := intervals s;
     next_interval := next_interval s;
     awaiting := awaiting s |}.

(** [setAdvancedMode(!advancedMode)] *)
Definition toggleAdvancedMode (s : Page) : Page :=
  {| advancedMode := negb (advancedMode s);
     isGenerating := isGenerating s;
     progress := progress s;
     activeTab := activeTab s;
     error := error s;
     result := result s;
     intervals := intervals s;
     next_interval := next_interval s;
     awaiting := awaiting s |}.

(** What can happen to the page: the form is submitted (its button is
    disabled while [isGenerating]); an interval that runs fires; the
    generator answers or throws for the call that waits; an enabled tab is
    selected; the advanced options are toggled. *)
Inductive step : Page -> Page -> Prop :=
| step_submit (s : Page) :
    isGenerating s = false -> step s (handleSubmit_begin s)
| step_tick (s : Page) (i : nat) :
    In i (intervals s) -> step s (progress_tick i s)
| step_resolved (s : Page) (i : nat) (response : option Response) :
    awaiting s = Some i -> step s (handleSubmit_resolved i response s)
| step_rejected (s : Page) (i : nat) (message : option string) :
    awaiting s = Some i -> step s (handleSubmit_rejected message s)
| step_select (s : Page) (key : string) :
    In key ["parameters"; "progress"; "result"] ->
    tab_disabled key s = false -> step s (setActiveTab key s)
| step_toggle (s : Page) :
    step s (toggleAdvancedMode s).

(** The intervals of the list fire one after the other. *)
Definition ticks (l : list nat) (s : Page) : Page :=
  fold_left (fun s i => progress_tick i s) l s.

Inductive reachable : Page -> Prop :=
| reachable_initial : reachable initial
| reachable_step (s s' : Page) : reachable s -> step s s' -> reachable s'.

End GeneratePage.

(** ** The vocabulary of the statements *)

(** A voltage is in range when it lies in the closed interval. *)
Definition in_range (v : Q) : Prop := (0.95 <= v)%Q /\ (v <= 1.05)%Q.

(** [s] contains [t]: [t] is a run of consecutive characters of [s]. *)
Definition contains (s t : string) : Prop :=
  exists a b : string, s = a ++ t ++ b.

(** The test of criterion 3 on an identifier. *)
Definition flagged (id : string) : bool :=
  JS.includes id "invalid" || JS.includes id "stress" || JS.includes id "overload".

(** The voltage of a bus as the specification words it: [initial_status.vm]
    when that field is present, else [vm] when present, else 1.0. *)
Definition spec_bus_voltage (bus : Bus) : Q :=
  match initial_status_vm bus with
  | Some v => v
  | None => match b_vm bus with
            | Some v => v
            | None => 1.0%Q
            end
  end.


(** The object built at the three sites that follow the rule check. *)
Definition rule_result (scenarioId : string) (isValid : bool) : ValidationResult :=
  {| scenario_id := scenarioId;
     is_valid := isValid;
     physics_validation :=
       {| pv_is_valid := isValid;
          pv_voltage_violations :=
            if isValid then []
            else [ {| vv_bus_id := "Bus1"; vv_type := "Low voltage";
                      vv_value := 0.92; vv_limit := 0.95 |} ];
          pv_line_violations :=
            if isValid then []
            else [ {| lv_line_id := "Line1-2"; lv_type := "Flow exceeds limit";
                      lv_value := 320; lv_limit := 300 |} ] |};
     opendss_validation :=
       {| ov_success := isValid;
          ov_voltage_violations := [];
          ov_thermal_violations := [] |};
     opendss_success := isValid |}.

(** The object built in the [catch] of [validateScenario]. *)
Definition error_result (scenarioId : string) : ValidationResult :=
  {| scenario_id := scenarioId;
     is_valid := false;
     physics_validation :=
       {| pv_is_valid := false;
          pv_voltage_violations :=
            [ {| vv_bus_id := "Error"; vv_type := "Error validating";
                 vv_value := 0; vv_limit := 0 |} ];
          pv_line_violations := [] |};
     opendss_validation :=
       {| ov_success := false;
          ov_voltage_violations := [];
          ov_thermal_violations := [] |};
     opendss_success := false |}.

Definition logged (r : Run) (es : list Event) : Run :=
  mkRun (events r ++ es) (draws r).

(** The top-level verdict is the conjunction of the two passes. *)
Definition verdict_is_conjunction (res : ValidationResult) : Prop :=
  is_valid res = true <->
  pv_is_valid (physics_validation res) = true /\
  ov_success (opendss_validation res) = true.

(** The top-level success flag repeats the one of the circuit block. *)
Definition success_in_sync (res : ValidationResult) : Prop :=
  opendss_success res = ov_success (opendss_validation res).

(** The circuit block repeats the rule check and lists nothing. *)
Definition circuit_mirrors_physics (res : ValidationResult) : Prop :=
  ov_success (opendss_validation res) = pv_is_valid (physics_validation res) /\
  ov_voltage_violations (opendss_validation res) = [] /\
  ov_thermal_violations (opendss_validation res) = [].

(** ** Sample documents and worlds *)

Definition producer (id : string) : Device := mkDevice (Some id) (Some "producer").
Definition consumer (id : string) : Device := mkDevice (Some id) (Some "consumer").
Definition bus_at (id : string) (vm : Q) : Bus := mkBus (Some id) (Some vm) None.

(** Four buses at nominal voltage, two generators, two loads. *)
Definition demo_network : Network :=
  {| n_bus := Some [bus_at "B1" 1.0; bus_at "B2" 1.0; bus_at "B3" 1.0; bus_at "B4" 1.0];
     n_ac_line := Some [mkAcLine (Some "L1")];
     n_simple_dispatchable_device :=
       Some [producer "G1"; producer "G2"; consumer "D1"; consumer "D2"] |}.

Definition demo_scenario (id : string) : Scenario :=
  {| s_scenario_id := Some id; s_id := None; s_network := Some demo_network |}.

(** One generator and one bus. *)
Definition one_bus_scenario (id : string) (bus : Bus) : Scenario :=
  {| s_scenario_id := Some id;
     s_id := None;
     s_network := Some {| n_bus := Some [bus];
                          n_ac_line := None;
                          n_simple_dispatchable_device := Some [producer "G1"] |} |}.


(** A backend that rejects every request; [Math.random] gives 0.5, then 0.1. *)
Definition offline : World :=
  {| get_scenario := fun _ => None;
     get_validation := fun _ => None;
     post_validate := fun _ _ => None;
     random := fun n => match n with O => 0.5%Q | S _ => 0.1%Q end |}.

(** A backend that answers every [GET /scenarios/:id] with the same
    document and has no validation endpoint. *)
Definition serving (s : Scenario) : World :=
  {| get_scenario := fun _ => Some (Some s);
     get_validation := fun _ => None;
     post_validate := fun _ _ => None;
     random := fun _ => 0.5%Q |}.

Definition fresh : Run := mkRun [] 0.

(** ** The four criteria as the specification words them

    These follow the words of the specification and read the fields of the
    document themselves; they share nothing with [_validateScenarioData]. *)

(** The buses of the document, none when the network or its [bus] is
    missing. *)
Definition spec_buses (s : Scenario) : list Bus :=
  match s_network s with
  | Some n => match n_bus n with Some l => l | None => [] end
  | None => []
  end.

(** The devices of the document, none when the network or its
    [simple_dispatchable_device] is missing. *)
Definition spec_devices (s : Scenario) : list Device :=
  match s_network s with
  | Some n => match n_simple_dispatchable_device n with Some l => l | None => [] end
  | None => []
  end.

(** The number of devices whose [device_type] is [tag]. *)
Fixpoint count_type (tag : string) (ds : list Device) : nat :=
  match ds with
  | [] => 0
  | d :: rest =>
      match d_device_type d with
      | Some t => if string_dec t tag then S (count_type tag rest)
                  else count_type tag rest
      | None => count_type tag rest
      end
  end.

(** The identifier: [scenario_id], or the [id] field when [scenario_id] is
    missing or empty, or the empty string when there is neither. *)
Definition spec_identifier (s : Scenario) : string :=
  match s_scenario_id s with
  | Some (String c t) => String c t
  | _ => match s_id s with
         | Some i => i
         | None => ""
         end
  end.

(** The four criteria: a producer exists; with producers, consumers divided
    by producers is at most 2; the identifier contains none of the three
    words; every bus voltage lies in [0.95, 1.05]. *)
Definition spec_four_criteria (s : Scenario) : Prop :=
  let producers := count_type "producer" (spec_devices s) in
  let consumers := count_type "consumer" (spec_devices s) in
  (1 <= producers)%nat
  /\ ((0 < producers)%nat ->
      (Z.of_nat consumers # Pos.of_nat producers <= 2)%Q)
  /\ (~ contains (spec_identifier s) "invalid"
      /\ ~ contains (spec_identifier s) "stress"
      /\ ~ contains (spec_identifier s) "overload")
  /\ Forall (fun bus => in_range (spec_bus_voltage bus)) (spec_buses s).

(** No bus of the document has a voltage field that is present and 0. *)
Definition no_zero_voltage_field (s : Scenario) : Prop :=
  Forall (fun bus =>
            (forall v, initial_status_vm bus = Some v -> ~ (v == 0)%Q)
            /\ (forall v, b_vm bus = Some v -> ~ (v == 0)%Q))
         (spec_buses s).

(** ** Edits of a scenario document *)

(** The document with its buses, lines and devices replaced. *)
Definition with_network (s : Scenario) (buses : list Bus)
           (lines : option (list AcLine)) (devices : list Device) : Scenario :=
  {| s_scenario_id := s_scenario_id s;
     s_id := s_id s;
     s_network := Some {| n_bus := Some buses;
                          n_ac_line := lines;
                          n_simple_dispatchable_device := Some devices |} |}.

(** The document with its [id] field replaced. *)
Definition with_id (s : Scenario) (i : option string) : Scenario :=
  {| s_scenario_id := s_scenario_id s; s_id := i; s_network := s_network s |}.

(** A number field that is missing or holds 0: what [||] skips. *)
Definition falsy_num (x : option Q) : Prop :=
  x = None \/ exists z, x = Some z /\ (z == 0)%Q.

(** The requests among the events of a run. *)
Definition is_request (e : Event) : bool :=
  match e with
  | HttpGet _ | HttpPost _ => true
  | ConsoleError _ _ | ConsoleWarn _ => false
  end.

Definition requests (es : list Event) : list Event := filter is_request es.

(** * Properties *)

(** Runs the plumbing of an asynchronous call down to its result. *)
Ltac run_async :=
  unfold getScenarioById, api_get_scenario, api_get_validation, api_post_validate,
    call_validateScenarioData, math_random, console_warn, console_error, emit,
    try_catch, bind, ret, throw;
  simpl.

(** ** Numbers and strings *)

Lemma ltb_lt (a b : Q) : JS.ltb a b = true <-> (a < b)%Q.
Proof.
  unfold JS.ltb. rewrite negb_true_iff.
  split; intro H.
  - apply Qnot_le_lt. intro Hle. apply Qle_bool_iff in Hle. congruence.
  - destruct (Qle_bool b a) eqn:E; [|reflexivity].
    apply Qle_bool_iff in E. exfalso. exact (Qlt_not_le _ _ H E).
Qed.

Lemma ltb_ge (a b : Q) : JS.ltb a b = false <-> (b <= a)%Q.
Proof.
  unfold JS.ltb. rewrite negb_false_iff. apply Qle_bool_iff.
Qed.

Lemma out_of_range_false (v : Q) : out_of_range v = false <-> in_range v.
Proof.
  unfold out_of_range, in_range.
  rewrite orb_false_iff, !ltb_ge. tauto.
Qed.

Lemma out_of_range_true (v : Q) :
  out_of_range v = true <-> (v < 0.95)%Q \/ (1.05 < v)%Q.
Proof.
  unfold out_of_range. rewrite orb_true_iff, !ltb_lt. tauto.
Qed.

Lemma prefix_app (t s : string) :
  String.prefix t s = true <-> exists b, s = t ++ b.
Proof.
  revert t. induction s as [|c' s IH]; intros [|c t]; simpl.
  - split; [intros _; now exists "" | reflexivity].
  - split; [discriminate | intros [b Hb]; discriminate].
  - split; [intros _; now exists (String c' s) | reflexivity].
  - destruct (Ascii.ascii_dec c c') as [->|Hne].
    + rewrite IH. split; intros [b Hb]; exists b; congruence.
    + split; [discriminate | intros [b Hb]; congruence].
Qed.

Lemma includes_unfold (s t : string) :
  JS.includes s t
  = if String.prefix t s then true
    else match s with
         | EmptyString => false
         | String _ s' => JS.includes s' t
         end.
Proof. destruct s; reflexivity. Qed.

Lemma includes_contains (s t : string) :
  JS.includes s t = true <-> contains s t.
Proof.
  unfold contains. induction s as [|c s IH]; rewrite includes_unfold.
  - destruct (String.prefix t "") eqn:E.
    + split; [intros _|reflexivity].
      apply prefix_app in E. destruct E as [b Hb]. now exists "", b.
    + split; [discriminate|]. intros [a [b Hab]].
      destruct a; simpl in Hab; [|discriminate].
      assert (String.prefix t "" = true) by (apply prefix_app; now exists b).
      congruence.
  - destruct (String.prefix t (String c s)) eqn:E.
    + split; [intros _|reflexivity].
      apply prefix_app in E. destruct E as [b Hb]. now exists "", b.
    + rewrite IH. split.
      * intros [a [b Hab]]. exists (String c a), b. simpl. now rewrite Hab.
      * intros [a [b Hab]]. destruct a as [|c' a]; simpl in Hab.
        -- assert (String.prefix t (String c s) = true)
             by (apply prefix_app; now exists b).
           congruence.
        -- exists a, b. congruence.
Qed.

(** The match is case-sensitive. *)
Example includes_case_sensitive :
  JS.includes "STRESS-test" "stress" = false /\
  JS.includes "a-stress-test" "stress" = true.
Proof. split; reflexivity. Qed.

(** ** The loop over the buses *)

Lemma bus_loop_flag (buses : list Bus) (isValid : bool) :
  fst (bus_loop buses isValid)
  = isValid && forallb (fun bus => negb (out_of_range (bus_voltage bus))) buses.
Proof.
  induction buses as [|bus rest IH]; simpl.
  - now rewrite andb_true_r.
  - destruct (out_of_range (bus_voltage bus)); simpl.
    + now rewrite andb_false_r.
    + destruct (bus_loop rest isValid) as [v read]. simpl in *. exact IH.
Qed.

Lemma bus_loop_read_any_flag (buses : list Bus) (v1 v2 : bool) :
  snd (bus_loop buses v1) = snd (bus_loop buses v2).
Proof.
  induction buses as [|bus rest IH]; simpl; [reflexivity|].
  destruct (out_of_range (bus_voltage bus)); [reflexivity|].
  destruct (bus_loop rest v1), (bus_loop rest v2). simpl in *. now f_equal.
Qed.


Lemma forallb_in_range (buses : list Bus) :
  forallb (fun bus => negb (out_of_range (bus_voltage bus))) buses = true
  <-> Forall (fun bus => in_range (bus_voltage bus)) buses.
Proof.
  rewrite forallb_forall, Forall_forall.
  split; intros H b Hb; specialize (H b Hb).
  - apply out_of_range_false. now apply negb_true_iff.
  - apply negb_true_iff. now apply out_of_range_false.
Qed.

(** ** The rule check as a conjunction *)

Lemma validateScenarioData_eq (scenario : Scenario) :
  _validateScenarioData scenario
  = negb (List.length (scenario_generators scenario) <? 1)%nat
    && negb ((0 <? List.length (scenario_generators scenario))%nat
             && JS.ltb 2 (length_ratio (scenario_loads scenario)
                                       (scenario_generators scenario)))
    && negb (flagged (scenario_ident scenario))
    && forallb (fun bus => negb (out_of_range (bus_voltage bus)))
               (scenario_buses scenario).
Proof.
  unfold _validateScenarioData, scenario_generators, scenario_loads,
    scenario_devices, scenario_buses, scenario_network, flagged.
  cbv zeta. rewrite bus_loop_flag.
  destruct (List.length _ <? 1)%nat; simpl;
    destruct (_ && JS.ltb 2 _); simpl;
    destruct (JS.includes _ "invalid" || _ || _); reflexivity.
Qed.

Lemma flagged_false (id : string) :
  flagged id = false <->
  ~ contains id "invalid" /\ ~ contains id "stress" /\ ~ contains id "overload".
Proof.
  unfold flagged. rewrite !orb_false_iff, <- !includes_contains, !not_true_iff_false.
  tauto.
Qed.

(** The quotient of the two lengths exceeds 2 exactly when there are more
    than twice as many. *)
Lemma length_ratio_gt_2 {A B : Type} (a : list A) (b : list B) :
  (0 < List.length b)%nat ->
  ((2 < length_ratio a b)%Q <-> (2 * List.length b < List.length a)%nat).
Proof.
  unfold length_ratio. intro Hb.
  destruct (List.length b) as [|n] eqn:E; [lia|].
  assert (Hpos : (0 < inject_Z (Z.of_nat (S n)))%Q)
    by (unfold Qlt, inject_Z; simpl; lia).
  split; intro H.
  - apply (Qmult_lt_r _ _ _ Hpos) in H.
    unfold Qdiv in H. rewrite <- Qmult_assoc, (Qmult_comm (/ _)), Qmult_inv_r,
      Qmult_1_r in H by (intro Hz; rewrite Hz in Hpos; discriminate).
    unfold Qlt, inject_Z in H. simpl in H. lia.
  - apply Qlt_shift_div_l; [exact Hpos|].
    unfold Qlt, inject_Z. simpl. lia.
Qed.

(** The test of criterion 2 without the division. *)
Lemma ratio_test_in_integers {A B : Type} (loads : list A) (generators : list B) :
  (0 <? List.length generators)%nat && JS.ltb 2 (length_ratio loads generators)
  = (0 <? List.length generators)%nat
    && (2 * List.length generators <? List.length loads)%nat.
Proof.
  destruct (0 <? List.length generators)%nat eqn:E; [|reflexivity]. simpl.
  apply Nat.ltb_lt in E.
  destruct (JS.ltb 2 (length_ratio loads generators)) eqn:R.
  - apply ltb_lt in R. apply (length_ratio_gt_2 loads generators E) in R.
    symmetry. now apply Nat.ltb_lt.
  - symmetry. apply Nat.ltb_ge. apply ltb_ge in R.
    destruct (Nat.le_gt_cases (List.length loads) (2 * List.length generators))
      as [H|H]; [exact H|].
    apply (length_ratio_gt_2 loads generators E) in H.
    exfalso. exact (Qlt_not_le _ _ H R).
Qed.

(** Criteria 1 and 2 as two comparisons of whole numbers. *)
Lemma presence_and_ratio_tests (g l : nat) :
  negb (g <? 1)%nat && negb ((0 <? g)%nat && (2 * g <? l)%nat)
  = (1 <=? g)%nat && (l <=? 2 * g)%nat.
Proof.
  destruct (Nat.ltb_spec g 1), (Nat.leb_spec 1 g), (Nat.ltb_spec 0 g),
    (Nat.ltb_spec (2 * g) l), (Nat.leb_spec l (2 * g));
    try reflexivity; exfalso; lia.
Qed.

(** ** What [validateScenario] returns *)

Lemma validateScenario_try_data (id : string) (s : Scenario) (w : World) (r : Run) :
  ApiService.validateScenario_try id (Some s) w r
  = (inl (rule_result id (_validateScenarioData s)), r).
Proof. reflexivity. Qed.

Lemma validateScenario_try_fetch (id : string) (w : World) (r : Run) :
  ApiService.validateScenario_try id None w r
  = match get_scenario w id with
    | Some (Some s) =>
        (inl (rule_result id (_validateScenarioData s)),
         logged r [HttpGet ("/scenarios/" ++ id)])
    | Some None =>
        (inr (TypeError "Cannot read properties of null (reading 'network')"),
         logged r [HttpGet ("/scenarios/" ++ id)])
    | None =>
        (inr (RequestFailed ("/scenarios/" ++ id)),
         logged r [HttpGet ("/scenarios/" ++ id);
                   ConsoleError ("Error fetching scenario " ++ id ++ ":")
                                (RequestFailed ("/scenarios/" ++ id))])
    end.
Proof.
  unfold ApiService.validateScenario_try, logged. run_async.
  destruct (get_scenario w id) as [[s|]|]; simpl; try reflexivity.
  now rewrite <- app_assoc.
Qed.

(** The [catch] turns every throw of the [try] block into the error object. *)
Lemma validateScenario_catch (id : string) (data : option Scenario) (w : World) (r : Run) :
  ApiService.validateScenario id data w r
  = match ApiService.validateScenario_try id data w r with
    | (inl res, r1) => (inl res, r1)
    | (inr e, r1) =>
        (inl (error_result id),
         logged r1 [ConsoleError ("Error validating scenario " ++ id ++ ":") e])
    end.
Proof.
  unfold ApiService.validateScenario, try_catch.
  destruct (ApiService.validateScenario_try id data w r) as [[res|e] r1]; reflexivity.
Qed.

Lemma validateScenario_try_rule (id : string) (data : option Scenario) (w : World)
      (r r1 : Run) (res : ValidationResult) :
  ApiService.validateScenario_try id data w r = (inl res, r1) ->
  exists isValid, res = rule_result id isValid.
Proof.
  destruct data as [s|].
  - rewrite validateScenario_try_data. intro H. injection H as <- _. eauto.
  - rewrite validateScenario_try_fetch.
    destruct (get_scenario w id) as [[s|]|]; intro H; try discriminate.
    injection H as <- _. eauto.
Qed.

(** Every call returns, and what it returns is one of the two objects. *)
Lemma validateScenario_returns (id : string) (data : option Scenario) (w : World) (r : Run) :
  exists res r1,
    ApiService.validateScenario id data w r = (inl res, r1) /\
    ((exists isValid, res = rule_result id isValid) \/ res = error_result id).
Proof.
  rewrite validateScenario_catch.
  destruct (ApiService.validateScenario_try id data w r) as [[res|e] r1] eqn:E.
  - exists res, r1. split; [reflexivity|]. left. eapply validateScenario_try_rule; eauto.
  - eexists _, _. split; [reflexivity|]. now right.
Qed.

(** ** What [getValidationResults] returns when the endpoint is missing *)

Lemma getValidationResults_simulated (id : string) (w : World) (r : Run) :
  get_validation w id = None ->
  exists r1,
    ApiService.getValidationResults id w r
    = (inl (rule_result id
              match get_scenario w id with
              | Some (Some s) => _validateScenarioData s
              | _ => negb (flagged id)
              end), r1).
Proof.
  intro Hv.
  unfold ApiService.getValidationResults. run_async. rewrite Hv. simpl.
  destruct (get_scenario w id) as [[s|]|]; simpl.
  - eexists. reflexivity.
  - eexists. unfold flagged. destruct (_ || _ || _); reflexivity.
  - eexists. unfold flagged. destruct (_ || _ || _); reflexivity.
Qed.

Lemma getValidationResults_mocked (id : string) (w : World) (r : Run) :
  get_validation w id = None ->
  ApiServiceAlt.getValidationResults id w r
  = (inl {| scenario_id := id;
            is_valid := JS.ltb 0.3 (random w (draws r));
            physics_validation :=
              {| pv_is_valid := JS.ltb 0.3 (random w (S (draws r)));
                 pv_voltage_violations := [];
                 pv_line_violations := [] |};
            opendss_validation :=
              {| ov_success := true;
                 ov_voltage_violations := [];
                 ov_thermal_violations := [] |};
            opendss_success := true |},
     mkRun (events r
              ++ [HttpGet ("/scenarios/" ++ id ++ "/validation");
                  ConsoleWarn ("Validation endpoint not available for " ++ id
                               ++ ", using mocked data")])
           (S (S (draws r)))).
Proof.
  intro Hv.
  unfold ApiServiceAlt.getValidationResults. run_async. rewrite Hv. simpl.
  now rewrite <- app_assoc.
Qed.

(** With the backend off line the simulated results follow the identifier
    alone; with the document served they follow the rule check. *)
Example getValidationResults_offline :
  fst (ApiService.getValidationResults "stress-test-7" offline fresh)
  = inl (rule_result "stress-test-7" false)
  /\ fst (ApiService.getValidationResults "demo-001" offline fresh)
     = inl (rule_result "demo-001" true)
  /\ fst (ApiService.getValidationResults "stress-test-7"
            (serving (demo_scenario "demo-001")) fresh)
     = inl (rule_result "stress-test-7" true).
Proof. repeat split. Qed.

Example demo_is_valid : _validateScenarioData (demo_scenario "demo-001") = true.
Proof. reflexivity. Qed.

Example three_loads_one_generator_is_invalid :
  _validateScenarioData
    {| s_scenario_id := Some "demo-003"; s_id := None;
       s_network := Some {| n_bus := None; n_ac_line := None;
                            n_simple_dispatchable_device :=
                              Some [producer "G1"; consumer "D1"; consumer "D2";
                                    consumer "D3"] |} |} = false.
Proof. reflexivity. Qed.

(** ** The rule check *)

Lemma flagged_word (id word : string) :
  In word ["invalid"; "stress"; "overload"] -> contains id word ->
  flagged id = true.
Proof.
  intros Hw Hc. apply includes_contains in Hc. unfold flagged.
  destruct Hw as [<-|[<-|[<-|[]]]]; rewrite Hc; simpl;
    rewrite ?orb_true_r; reflexivity.
Qed.

(** C3: a scenario whose scenario_id contains invalid, stress or overload,
    or whose scenario_id is missing or empty and whose id field contains
    one of them, is reported with is_valid = false, whatever its network,
    whether the document is passed in or fetched. *)
Theorem flagged_identifier_is_invalid
        (id word : string) (s : Scenario) (w : World) (r : Run) :
  In word ["invalid"; "stress"; "overload"] ->
  (exists sid, s_scenario_id s = Some sid /\ contains sid word)
  \/ ((s_scenario_id s = None \/ s_scenario_id s = Some "")
      /\ exists i, s_id s = Some i /\ contains i word) ->
  (exists res, ApiService.validateScenario id (Some s) w r = (inl res, r)
               /\ is_valid res = false)
  /\ (get_scenario w id = Some (Some s) ->
      exists res r1, ApiService.validateScenario id None w r = (inl res, r1)
                     /\ is_valid res = false).
Proof.
  intros Hw H.
  assert (Hf : flagged (scenario_ident s) = true).
  { destruct H as [[sid [Hsid Hc]] | [Hsid [i [Hi Hc]]]].
    - assert (Hid : scenario_ident s = sid).
      { unfold scenario_ident. rewrite Hsid. destruct sid as [|c t].
        + destruct Hc as [a [b Hab]]. exfalso.
          destruct a; simpl in Hab;
            [destruct Hw as [<-|[<-|[<-|[]]]]; discriminate|discriminate].
        + reflexivity. }
      rewrite Hid. exact (flagged_word sid word Hw Hc).
    - assert (Hid : scenario_ident s = i).
      { unfold scenario_ident. rewrite Hi.
        destruct Hsid as [-> | ->]; simpl; destruct i; reflexivity. }
      rewrite Hid. exact (flagged_word i word Hw Hc). }
  assert (Hv : _validateScenarioData s = false).
  { rewrite validateScenarioData_eq, Hf. simpl. now rewrite andb_false_r. }
  split.
  - exists (rule_result id false).
    rewrite validateScenario_catch, validateScenario_try_data, Hv. now split.
  - intro Hg. exists (rule_result id false). eexists.
    rewrite validateScenario_catch, validateScenario_try_fetch, Hg, Hv. now split.
Qed.

Lemma flagged_identifier_is_invalid_witness :
  ((exists res, ApiService.validateScenario "stress-test-7"
                  (Some (demo_scenario "stress-test-7"))
                  (serving (demo_scenario "stress-test-7")) fresh = (inl res, fresh)
                /\ is_valid res = false)
   /\ (get_scenario (serving (demo_scenario "stress-test-7")) "stress-test-7"
       = Some (Some (demo_scenario "stress-test-7")) ->
       exists res r1, ApiService.validateScenario "stress-test-7" None
                        (serving (demo_scenario "stress-test-7")) fresh
                      = (inl res, r1)
                      /\ is_valid res = false))
  /\ ((exists res, ApiService.validateScenario "demo-009"
                     (Some {| s_scenario_id := None;
                              s_id := Some "grid-overload-2";
                              s_network := Some demo_network |})
                     offline fresh = (inl res, fresh)
                   /\ is_valid res = false)
      /\ (get_scenario offline "demo-009"
          = Some (Some {| s_scenario_id := None;
                          s_id := Some "grid-overload-2";
                          s_network := Some demo_network |}) ->
          exists res r1, ApiService.validateScenario "demo-009" None offline fresh
                         = (inl res, r1)
                         /\ is_valid res = false)).
Proof.
  split.
  - apply (flagged_identifier_is_invalid "stress-test-7" "stress"
             (demo_scenario "stress-test-7")).
    + simpl. tauto.
    + left. exists "stress-test-7". split; [reflexivity|].
      apply includes_contains. reflexivity.
  - apply (flagged_identifier_is_invalid "demo-009" "overload"
             {| s_scenario_id := None; s_id := Some "grid-overload-2";
                s_network := Some demo_network |}).
    + simpl. tauto.
    + right. split; [left; reflexivity|].
      exists "grid-overload-2". split; [reflexivity|].
      apply includes_contains. reflexivity.
Defined.

(** The same document under another identifier passes, passed in or
    fetched. *)
Example demo_document_validates :
  ApiService.validateScenario "demo-001" (Some (demo_scenario "demo-001")) offline fresh
  = (inl (rule_result "demo-001" true), fresh)
  /\ ApiService.validateScenario "demo-001" None (serving (demo_scenario "demo-001")) fresh
     = (inl (rule_result "demo-001" true), mkRun [HttpGet "/scenarios/demo-001"] 0).
Proof. split; reflexivity. Qed.

(** C4: a bus whose vm is present and equal to 0 is read as the default 1.0
    and passes the range check, where the value 0 itself is out of range. *)
Theorem zero_vm_read_as_default :
  let bus := bus_at "B1" 0 in
  spec_bus_voltage bus = 0%Q /\
  out_of_range (spec_bus_voltage bus) = true /\
  bus_voltage bus = 1.0%Q /\
  out_of_range (bus_voltage bus) = false /\
  _validateScenarioData (one_bus_scenario "demo-004" bus) = true.
Proof. repeat split. Qed.

(** Where no field that is present holds 0, the voltage read is the one the
    specification words. *)
Lemma bus_voltage_spec (bus : Bus) :
  (forall v, initial_status_vm bus = Some v -> ~ (v == 0)%Q) ->
  (forall v, b_vm bus = Some v -> ~ (v == 0)%Q) ->
  bus_voltage bus = spec_bus_voltage bus.
Proof.
  unfold bus_voltage, spec_bus_voltage, JS.or_num, JS.truthy_num.
  intros Hi Hv.
  destruct (initial_status_vm bus) as [x|].
  - specialize (Hi x eq_refl).
    destruct (Qeq_bool x 0) eqn:E; [apply Qeq_bool_iff in E; contradiction|].
    simpl; rewrite ?E; simpl; rewrite ?E; reflexivity.
  - destruct (b_vm bus) as [y|]; [|reflexivity].
    specialize (Hv y eq_refl).
    destruct (Qeq_bool y 0) eqn:E; [apply Qeq_bool_iff in E; contradiction|].
    simpl; rewrite ?E; simpl; rewrite ?E; reflexivity.
Qed.

(** *** The code against the four criteria *)

Lemma count_type_filter (tag : string) (ds : list Device) :
  count_type tag ds = List.length (filter (device_type_is tag) ds).
Proof.
  induction ds as [|d ds IH]; simpl; [reflexivity|].
  unfold device_type_is. destruct (d_device_type d) as [t|]; [|exact IH].
  destruct (string_dec t tag) as [->|Hne].
  - rewrite String.eqb_refl. simpl. now rewrite IH.
  - apply String.eqb_neq in Hne. now rewrite Hne.
Qed.

Lemma spec_buses_read (s : Scenario) : spec_buses s = scenario_buses s.
Proof.
  unfold spec_buses, scenario_buses, scenario_network.
  destruct (s_network s) as [n|]; simpl; [destruct (n_bus n)|]; reflexivity.
Qed.

Lemma spec_devices_read (s : Scenario) : spec_devices s = scenario_devices s.
Proof.
  unfold spec_devices, scenario_devices, scenario_network.
  destruct (s_network s) as [n|]; simpl;
    [destruct (n_simple_dispatchable_device n)|]; reflexivity.
Qed.

Lemma spec_identifier_read (s : Scenario) : spec_identifier s = scenario_ident s.
Proof.
  unfold spec_identifier, scenario_ident.
  destruct (s_scenario_id s) as [[|c t]|]; simpl;
    destruct (s_id s) as [[|c' t']|]; reflexivity.
Qed.

Lemma quotient_at_most_2 (consumers producers : nat) :
  (0 < producers)%nat ->
  ((Z.of_nat consumers # Pos.of_nat producers <= 2)%Q
   <-> (consumers <= 2 * producers)%nat).
Proof.
  intro Hp. unfold Qle. cbn [Qnum Qden].
  destruct producers as [|n]; [lia|].
  rewrite <- Pos.of_nat_succ, Zpos_P_of_succ_nat. lia.
Qed.

Lemma spec_four_criteria_int (s : Scenario) :
  spec_four_criteria s <->
  (1 <= List.length (scenario_generators s))%nat
  /\ (List.length (scenario_loads s) <= 2 * List.length (scenario_generators s))%nat
  /\ flagged (scenario_ident s) = false
  /\ Forall (fun bus => in_range (spec_bus_voltage bus)) (scenario_buses s).
Proof.
  unfold spec_four_criteria. cbv zeta.
  rewrite !count_type_filter, spec_devices_read, spec_identifier_read,
    spec_buses_read, flagged_false.
  fold (scenario_generators s). fold (scenario_loads s).
  split.
  - intros (H1 & H2 & H3 & H4). repeat split; try tauto.
    apply quotient_at_most_2; [lia|]. apply H2. lia.
  - intros (H1 & H2 & H3 & H4). repeat split; try tauto.
    intro Hp. now apply quotient_at_most_2.
Qed.

(** C1: on every scenario none of whose buses has a voltage field that is
    present and 0, the rule check returns true exactly when the four
    criteria pass; no producer, or more than two consumers per producer,
    always makes the scenario invalid.  With a bus whose vm is present and
    0 (as in C4) the rule check returns true although the fourth criterion
    fails. *)
Theorem four_criteria_except_zero_voltage :
  (forall scenario,
      no_zero_voltage_field scenario ->
      (_validateScenarioData scenario = true <-> spec_four_criteria scenario))
  /\ (forall scenario,
        count_type "producer" (spec_devices scenario) = 0%nat ->
        _validateScenarioData scenario = false)
  /\ (forall scenario,
        (0 < count_type "producer" (spec_devices scenario))%nat ->
        (2 < Z.of_nat (count_type "consumer" (spec_devices scenario))
             # Pos.of_nat (count_type "producer" (spec_devices scenario)))%Q ->
        _validateScenarioData scenario = false)
  /\ (_validateScenarioData (one_bus_scenario "demo-004" (bus_at "B1" 0)) = true
      /\ ~ spec_four_criteria (one_bus_scenario "demo-004" (bus_at "B1" 0))).
Proof.
  split; [|split; [|split]].
  - intros scenario Hnz.
    rewrite spec_four_criteria_int, validateScenarioData_eq, ratio_test_in_integers,
      presence_and_ratio_tests.
    rewrite !andb_true_iff, negb_true_iff, !Nat.leb_le, forallb_in_range.
    assert (Hread : Forall (fun bus => in_range (bus_voltage bus)) (scenario_buses scenario)
                    <-> Forall (fun bus => in_range (spec_bus_voltage bus))
                               (scenario_buses scenario)).
    { unfold no_zero_voltage_field in Hnz. rewrite spec_buses_read in Hnz.
      rewrite !Forall_forall in *. split; intros H b Hb.
      - destruct (Hnz b Hb) as [Hi Hv]. rewrite <- (bus_voltage_spec b Hi Hv). auto.
      - destruct (Hnz b Hb) as [Hi Hv]. rewrite (bus_voltage_spec b Hi Hv). auto. }
    rewrite Hread. tauto.
  - intros scenario H0.
    rewrite count_type_filter, spec_devices_read in H0.
    fold (scenario_generators scenario) in H0.
    rewrite validateScenarioData_eq, H0. reflexivity.
  - intros scenario Hp Hr.
    rewrite !count_type_filter, spec_devices_read in *.
    fold (scenario_generators scenario) in *. fold (scenario_loads scenario) in *.
    assert (Hgt : (2 * List.length (scenario_generators scenario)
                   < List.length (scenario_loads scenario))%nat).
    { destruct (Nat.le_gt_cases (List.length (scenario_loads scenario))
                  (2 * List.length (scenario_generators scenario))) as [Hle|Hgt];
        [|exact Hgt].
      apply (quotient_at_most_2 _ _ Hp) in Hle.
      exfalso. exact (Qlt_not_le _ _ Hr Hle). }
    rewrite validateScenarioData_eq, ratio_test_in_integers.
    apply Nat.ltb_lt in Hp, Hgt. rewrite Hp, Hgt. simpl. now rewrite andb_false_r.
  - split; [reflexivity|].
    unfold spec_four_criteria. cbv zeta. intros (_ & _ & _ & H).
    simpl in H. inversion H as [|b l [Hlow _] _]. subst.
    apply Hlow. reflexivity.
Qed.

(** ** The verdict and its two parts *)

Lemma rule_result_conjunction (id : string) (v : bool) :
  verdict_is_conjunction (rule_result id v).
Proof. unfold verdict_is_conjunction. simpl. tauto. Qed.

Lemma error_result_conjunction (id : string) :
  verdict_is_conjunction (error_result id).
Proof. unfold verdict_is_conjunction. simpl. split; [discriminate|tauto]. Qed.

(** The mocked results of the second variant, with the validation endpoint
    missing and the draws 0.5 and 0.1: the verdict is true and the rule
    check is false. *)
Lemma mocked_verdict_not_conjunction :
  exists res r1,
    ApiServiceAlt.getValidationResults "demo-001" offline fresh = (inl res, r1) /\
    is_valid res = true /\
    pv_is_valid (physics_validation res) = false /\
    ~ verdict_is_conjunction res.
Proof.
  eexists _, _. split; [reflexivity|].
  split; [reflexivity|]. split; [reflexivity|].
  unfold verdict_is_conjunction. simpl. intros [H _].
  destruct (H eq_refl) as [Hp _]. discriminate Hp.
Qed.

(** C2, amended: in every result built by the rule-based service (by
    validateScenario on any path, and by getValidationResults when the
    validation endpoint is missing) is_valid is true iff both
    physics_validation.is_valid and the circuit block's success are true. *)
Theorem rule_based_verdict_is_conjunction
        (id : string) (data : option Scenario) (w : World) (r : Run) :
  (exists res r1, ApiService.validateScenario id data w r = (inl res, r1)
                  /\ verdict_is_conjunction res)
  /\ (get_validation w id = None ->
      exists res r1, ApiService.getValidationResults id w r = (inl res, r1)
                     /\ verdict_is_conjunction res).
Proof.
  split.
  - destruct (validateScenario_returns id data w r) as [res [r1 [E [[v ->]| ->]]]];
      eexists; exists r1; (split; [exact E|]).
    + apply rule_result_conjunction.
    + apply error_result_conjunction.
  - intro Hv. destruct (getValidationResults_simulated id w r Hv) as [r1 E].
    eexists; exists r1. split; [exact E|]. apply rule_result_conjunction.
Qed.

(** C8: in every result the services build, opendss_success equals
    opendss_validation.success: validateScenario of the rule-based service on
    any path, and getValidationResults of either variant when the validation
    endpoint is missing. *)
Theorem success_flags_in_sync
        (id : string) (data : option Scenario) (w : World) (r : Run) :
  (exists res r1, ApiService.validateScenario id data w r = (inl res, r1)
                  /\ success_in_sync res)
  /\ (get_validation w id = None ->
      exists res r1, ApiService.getValidationResults id w r = (inl res, r1)
                     /\ success_in_sync res)
  /\ (get_validation w id = None ->
      exists res r1, ApiServiceAlt.getValidationResults id w r = (inl res, r1)
                     /\ success_in_sync res).
Proof.
  split; [|split].
  - destruct (validateScenario_returns id data w r) as [res [r1 [E [[v ->]| ->]]]];
      eexists; exists r1; (split; [exact E|reflexivity]).
  - intro Hv. destruct (getValidationResults_simulated id w r Hv) as [r1 E].
    eexists; exists r1. split; [exact E|reflexivity].
  - intro Hv. rewrite (getValidationResults_mocked id w r Hv).
    eexists _, _. split; reflexivity.
Qed.

(** C10: in every result of validateScenario, and of getValidationResults
    when the validation endpoint is missing, the circuit block's success
    equals physics_validation.is_valid and its two violation lists are
    empty. *)
Theorem circuit_block_mirrors_rule_check
        (id : string) (data : option Scenario) (w : World) (r : Run) :
  (exists res r1, ApiService.validateScenario id data w r = (inl res, r1)
                  /\ circuit_mirrors_physics res)
  /\ (get_validation w id = None ->
      exists res r1, ApiService.getValidationResults id w r = (inl res, r1)
                     /\ circuit_mirrors_physics res).
Proof.
  split.
  - destruct (validateScenario_returns id data w r) as [res [r1 [E [[v ->]| ->]]]];
      eexists; exists r1; (split; [exact E|]); repeat split.
  - intro Hv. destruct (getValidationResults_simulated id w r Hv) as [r1 E].
    eexists; exists r1. split; [exact E|]. repeat split.
Qed.

(** ** The violation lists *)






(** ** Errors *)

(** With the backend off line the fetch is rejected; the rule-based
    [validateScenario] logs twice and returns the error object. *)
Example validateScenario_offline :
  ApiService.validateScenario "demo-001" None offline fresh
  = (inl (error_result "demo-001"),
     mkRun [HttpGet "/scenarios/demo-001";
            ConsoleError "Error fetching scenario demo-001:"
                         (RequestFailed "/scenarios/demo-001");
            ConsoleError "Error validating scenario demo-001:"
                         (RequestFailed "/scenarios/demo-001")] 0).
Proof. reflexivity. Qed.

(** A fetched body that is [null] is a fault of the rule check itself. *)
Example validateScenario_null_body :
  ApiService.validateScenario "demo-001" None
    {| get_scenario := fun _ => Some None;
       get_validation := fun _ => None;
       post_validate := fun _ _ => None;
       random := fun _ => 0.5%Q |} fresh
  = (inl (error_result "demo-001"),
     mkRun [HttpGet "/scenarios/demo-001";
            ConsoleError "Error validating scenario demo-001:"
              (TypeError "Cannot read properties of null (reading 'network')")] 0).
Proof. reflexivity. Qed.

(** The second variant of [validateScenario] logs the fault and throws it
    again: with the backend off line the call ends in the exception. *)
Lemma posting_validateScenario_throws :
  ApiServiceAlt.validateScenario "demo-001" offline fresh
  = (inr (RequestFailed "/scenarios/demo-001"),
     mkRun [HttpGet "/scenarios/demo-001";
            ConsoleError "Error fetching scenario demo-001:"
                         (RequestFailed "/scenarios/demo-001");
            ConsoleError "Error validating scenario demo-001:"
                         (RequestFailed "/scenarios/demo-001")] 0)
  /\ ~ exists res r1,
         ApiServiceAlt.validateScenario "demo-001" offline fresh = (inl res, r1).
Proof.
  split; [reflexivity|]. intros [res [r1 H]]. discriminate H.
Qed.

(** C7, amended: the rule-based validateScenario never throws; whenever its
    try block ends in an error it returns a result with is_valid = false,
    both sub-results failing, and a single entry in the rule check's
    voltage_violations: bus_id Error, type Error validating, value 0 and
    limit 0. *)
Theorem rule_based_validateScenario_never_throws
        (id : string) (data : option Scenario) (w : World) (r : Run) :
  (exists res r1, ApiService.validateScenario id data w r = (inl res, r1))
  /\ (forall e r1,
        ApiService.validateScenario_try id data w r = (inr e, r1) ->
        exists res r2,
          ApiService.validateScenario id data w r = (inl res, r2) /\
          scenario_id res = id /\
          is_valid res = false /\
          physics_validation res
          = {| pv_is_valid := false;
               pv_voltage_violations :=
                 [ {| vv_bus_id := "Error"; vv_type := "Error validating";
                      vv_value := 0; vv_limit := 0 |} ];
               pv_line_violations := [] |} /\
          opendss_validation res
          = {| ov_success := false;
               ov_voltage_violations := [];
               ov_thermal_violations := [] |} /\
          opendss_success res = false).
Proof.
  split.
  - destruct (validateScenario_returns id data w r) as [res [r1 [E _]]]. eauto.
  - intros e r1 He. rewrite validateScenario_catch, He.
    eexists _, _. split; [reflexivity|]. repeat split.
Qed.

(** ** Determinism *)

(** C9: validation of a scenario document is a function of the document (and
    of the identifier passed with it): whatever the backend, the random
    generator and the record of the run, the same document gives the same
    result and the run is left as it was; a fetched document gives the same
    result whenever the fetch answers the same. *)
Theorem validation_depends_on_scenario_only
        (id : string) (s : Scenario) (w1 w2 : World) (r1 r2 : Run) :
  (exists res,
     ApiService.validateScenario id (Some s) w1 r1 = (inl res, r1) /\
     ApiService.validateScenario id (Some s) w2 r2 = (inl res, r2) /\
     is_valid res = _validateScenarioData s)
  /\ (get_scenario w1 id = get_scenario w2 id ->
      fst (ApiService.validateScenario id None w1 r1)
      = fst (ApiService.validateScenario id None w2 r2)).
Proof.
  split.
  - exists (rule_result id (_validateScenarioData s)).
    rewrite !validateScenario_catch, !validateScenario_try_data. repeat split.
  - intro Hg. rewrite !validateScenario_catch, !validateScenario_try_fetch, Hg.
    destruct (get_scenario w2 id) as [[s'|]|]; reflexivity.
Qed.

(** * Further properties of the rule check *)

Lemma filter_length_perm {A : Type} (f : A -> bool) (l l' : list A) :
  Permutation l l' -> List.length (filter f l) = List.length (filter f l').
Proof.
  induction 1 as [|x l l' _ IH|x y l|l l' l'' _ IH1 _ IH2]; simpl.
  - reflexivity.
  - destruct (f x); simpl; congruence.
  - destruct (f x), (f y); reflexivity.
  - congruence.
Qed.

Lemma forallb_perm {A : Type} (f : A -> bool) (l l' : list A) :
  Permutation l l' -> forallb f l = forallb f l'.
Proof.
  induction 1 as [|x l l' _ IH|x y l|l l' l'' _ IH1 _ IH2]; simpl.
  - reflexivity.
  - now rewrite IH.
  - destruct (f x), (f y); reflexivity.
  - congruence.
Qed.

Lemma forallb_voltages (buses : list Bus) :
  forallb (fun bus => negb (out_of_range (bus_voltage bus))) buses
  = forallb (fun v => negb (out_of_range v)) (map bus_voltage buses).
Proof.
  induction buses as [|b buses IH]; simpl; [reflexivity|]. now rewrite IH.
Qed.

(** X1: the rule check in whole numbers.  It is true exactly when there is
    at least one producer, the consumers are at most twice the producers,
    the identifier is not flagged and every bus is in range: two consumers
    per producer pass, one more fails. *)
Theorem rule_check_in_integers (scenario : Scenario) :
  _validateScenarioData scenario
  = (1 <=? List.length (scenario_generators scenario))%nat
    && (List.length (scenario_loads scenario)
        <=? 2 * List.length (scenario_generators scenario))%nat
    && negb (flagged (scenario_ident scenario))
    && forallb (fun bus => negb (out_of_range (bus_voltage bus)))
               (scenario_buses scenario).
Proof.
  rewrite validateScenarioData_eq, ratio_test_in_integers.
  now rewrite presence_and_ratio_tests.
Qed.

(** X2: the rule check reads only four things of a document: how many
    producers, how many consumers, the identifier, and the voltages of the
    buses in order.  Lines, the ids of buses and devices, and devices of any
    other type do not matter. *)
Theorem rule_check_reads_four_things (s1 s2 : Scenario) :
  List.length (scenario_generators s1) = List.length (scenario_generators s2) ->
  List.length (scenario_loads s1) = List.length (scenario_loads s2) ->
  scenario_ident s1 = scenario_ident s2 ->
  map bus_voltage (scenario_buses s1) = map bus_voltage (scenario_buses s2) ->
  _validateScenarioData s1 = _validateScenarioData s2.
Proof.
  intros Hg Hl Hi Hv.
  rewrite !validateScenarioData_eq, !forallb_voltages.
  unfold length_ratio. now rewrite Hg, Hl, Hi, Hv.
Qed.

Lemma rule_check_reads_four_things_witness :
  _validateScenarioData (demo_scenario "demo-001")
  = _validateScenarioData
      {| s_scenario_id := None;
         s_id := Some "demo-001";
         s_network :=
           Some {| n_bus := Some [mkBus None None None;
                                  mkBus (Some "X") (Some 1.0%Q) (Some (mkInitialStatus None));
                                  mkBus None (Some 0.5%Q) (Some (mkInitialStatus (Some 1.0%Q)));
                                  bus_at "B4" 1.0];
                   n_ac_line := None;
                   n_simple_dispatchable_device :=
                     Some [consumer "a"; mkDevice None (Some "shunt"); producer "b";
                           mkDevice None None; producer "c"; consumer "d"] |} |}.
Proof.
  apply rule_check_reads_four_things; reflexivity.
Defined.

(** X3: the order of the buses and the order of the devices do not matter to
    the rule check, although the scan of the buses stops early. *)
Theorem rule_check_ignores_order
        (s : Scenario) (buses : list Bus) (devices : list Device) :
  Permutation (scenario_buses s) buses ->
  Permutation (scenario_devices s) devices ->
  _validateScenarioData (with_network s buses (n_ac_line (scenario_network s)) devices)
  = _validateScenarioData s.
Proof.
  intros Hb Hd. rewrite !validateScenarioData_eq.
  unfold scenario_generators, scenario_loads, length_ratio.
  change (scenario_devices (with_network s buses _ devices)) with devices.
  change (scenario_buses (with_network s buses _ devices)) with buses.
  change (scenario_ident (with_network s buses _ devices)) with (scenario_ident s).
  rewrite <- (filter_length_perm (device_type_is "producer") _ _ Hd).
  rewrite <- (filter_length_perm (device_type_is "consumer") _ _ Hd).
  now rewrite <- (forallb_perm _ _ _ Hb).
Qed.

Lemma rule_check_ignores_order_witness :
  _validateScenarioData
    (with_network (one_bus_scenario "demo-008" (bus_at "B1" 0.80))
       [bus_at "B1" 0.80] None [producer "G1"])
  = _validateScenarioData (one_bus_scenario "demo-008" (bus_at "B1" 0.80))
  /\ _validateScenarioData
       (with_network (demo_scenario "demo-001")
          [bus_at "B4" 1.0; bus_at "B3" 1.0; bus_at "B2" 1.0; bus_at "B1" 1.0]
          (n_ac_line (scenario_network (demo_scenario "demo-001")))
          [consumer "D2"; consumer "D1"; producer "G2"; producer "G1"])
     = _validateScenarioData (demo_scenario "demo-001").
Proof.
  split.
  - apply (rule_check_ignores_order (one_bus_scenario "demo-008" (bus_at "B1" 0.80)));
      apply Permutation_refl.
  - apply (rule_check_ignores_order (demo_scenario "demo-001")).
    + apply (Permutation_rev [bus_at "B1" 1.0; bus_at "B2" 1.0; bus_at "B3" 1.0;
                              bus_at "B4" 1.0]).
    + apply (Permutation_rev [producer "G1"; producer "G2"; consumer "D1";
                              consumer "D2"]).
Defined.

Lemma producer_is_not_consumer (d : Device) :
  device_type_is "producer" d = true -> device_type_is "consumer" d = false.
Proof.
  unfold device_type_is. destruct (d_device_type d) as [t|]; [|discriminate].
  intro H. apply String.eqb_eq in H. now subst t.
Qed.

(** X4: a scenario that passes the rule check still passes after a producer
    is added, and after buses are dropped or repeated; the lines never
    matter. *)
Theorem valid_stays_valid
        (s : Scenario) (d : Device) (buses : list Bus) (lines : option (list AcLine)) :
  _validateScenarioData s = true ->
  device_type_is "producer" d = true ->
  incl buses (scenario_buses s) ->
  _validateScenarioData (with_network s buses lines (d :: scenario_devices s)) = true.
Proof.
  intros Hs Hd Hb.
  rewrite validateScenarioData_eq, ratio_test_in_integers,
    presence_and_ratio_tests in *.
  unfold scenario_generators, scenario_loads in *.
  change (scenario_devices (with_network s buses lines (d :: scenario_devices s)))
    with (d :: scenario_devices s).
  change (scenario_buses (with_network s buses lines (d :: scenario_devices s)))
    with buses.
  change (scenario_ident (with_network s buses lines (d :: scenario_devices s)))
    with (scenario_ident s).
  simpl filter. rewrite Hd, (producer_is_not_consumer d Hd).
  apply andb_true_iff in Hs. destruct Hs as [Hs H4].
  apply andb_true_iff in Hs. destruct Hs as [Hs H3].
  apply andb_true_iff in Hs. destruct Hs as [H1 H2].
  apply Nat.leb_le in H1, H2.
  rewrite H3. rewrite !andb_true_iff.
  split; [split; [split|reflexivity]|].
  - apply Nat.leb_le. simpl List.length. lia.
  - apply Nat.leb_le. simpl List.length. lia.
  - rewrite forallb_forall in *. intros b Hin. apply H4, Hb, Hin.
Qed.

Lemma valid_stays_valid_witness :
  _validateScenarioData
    (with_network (demo_scenario "demo-001") [bus_at "B3" 1.0; bus_at "B1" 1.0] None
       (producer "G3" :: scenario_devices (demo_scenario "demo-001"))) = true.
Proof.
  apply (valid_stays_valid (demo_scenario "demo-001") (producer "G3")).
  - reflexivity.
  - reflexivity.
  - intros b [<-|[<-|[]]]; simpl; tauto.
Defined.

Lemma scenario_ident_shadow (s : Scenario) (sid : string) (i : option string) :
  s_scenario_id s = Some sid -> sid <> "" ->
  scenario_ident (with_id s i) = sid /\ scenario_ident s = sid.
Proof.
  intros Hsid Hne. unfold scenario_ident, with_id. simpl. rewrite Hsid.
  destruct sid as [|c t]; [congruence|]. now split.
Qed.

(** X5: the [id] field is a fallback only.  With a scenario_id that is not
    empty the rule check never looks at [id]; with scenario_id missing or
    empty, a flagged [id] makes the scenario invalid. *)
Theorem id_field_is_fallback_only (s : Scenario) :
  (forall sid i, s_scenario_id s = Some sid -> sid <> "" ->
                 _validateScenarioData (with_id s i) = _validateScenarioData s)
  /\ (forall i, s_scenario_id s = None \/ s_scenario_id s = Some "" ->
                s_id s = Some i -> flagged i = true ->
                _validateScenarioData s = false).
Proof.
  split.
  - intros sid i Hsid Hne.
    destruct (scenario_ident_shadow s sid i Hsid Hne) as [H1 H2].
    rewrite !validateScenarioData_eq, H1, H2. reflexivity.
  - intros i Hsid Hid Hf. rewrite validateScenarioData_eq.
    assert (Hi : scenario_ident s = i).
    { unfold scenario_ident. rewrite Hid.
      destruct Hsid as [-> | ->]; simpl; destruct i; reflexivity. }
    rewrite Hi, Hf. simpl. now rewrite andb_false_r.
Qed.

Lemma or_num_falsy (a b : option Q) : falsy_num a -> JS.or_num a b = b.
Proof.
  intros [-> | [z [-> Hz]]]; [reflexivity|].
  unfold JS.or_num, JS.truthy_num. apply Qeq_bool_iff in Hz. now rewrite Hz.
Qed.

Lemma or_num_truthy (v : Q) (b : option Q) :
  ~ (v == 0)%Q -> JS.or_num (Some v) b = Some v.
Proof.
  intro Hv. unfold JS.or_num, JS.truthy_num.
  destruct (Qeq_bool v 0) eqn:E; [apply Qeq_bool_iff in E; contradiction|reflexivity].
Qed.

(** X6: the voltage read for a bus is the first of initial_status.vm and vm
    that is present and not 0, and 1.0 when there is none; it is never 0,
    so a bus at 0 is never seen by the range test. *)
Theorem bus_voltage_first_nonzero (bus : Bus) :
  (forall v, initial_status_vm bus = Some v -> ~ (v == 0)%Q -> bus_voltage bus = v)
  /\ (forall u, falsy_num (initial_status_vm bus) ->
                b_vm bus = Some u -> ~ (u == 0)%Q -> bus_voltage bus = u)
  /\ (falsy_num (initial_status_vm bus) -> falsy_num (b_vm bus) ->
      bus_voltage bus = 1.0%Q)
  /\ ~ (bus_voltage bus == 0)%Q.
Proof.
  unfold bus_voltage. repeat split.
  - intros v Hi Hv. now rewrite Hi, !(or_num_truthy v) by exact Hv.
  - intros u Hi Hu Hnz.
    now rewrite (or_num_falsy _ _ Hi), Hu, (or_num_truthy u) by exact Hnz.
  - intros Hi Hu. now rewrite (or_num_falsy _ _ Hi), (or_num_falsy _ _ Hu).
  - destruct (JS.or_num (initial_status_vm bus) (b_vm bus)) as [x|] eqn:E; simpl.
    + unfold JS.truthy_num. destruct (Qeq_bool x 0) eqn:Ex; simpl.
      * discriminate.
      * intro H. apply Qeq_bool_iff in H. congruence.
    + discriminate.
Qed.

Lemma includes_app (a s b t : string) :
  JS.includes s t = true -> JS.includes (a ++ s ++ b) t = true.
Proof.
  rewrite !includes_contains. intros [x [y ->]].
  exists (a ++ x), (y ++ b).
  induction a as [|c a IH]; simpl.
  - induction x as [|c x IHx]; simpl.
    + induction t as [|c t IHt]; simpl; [reflexivity|]. now rewrite IHt.
    + now rewrite IHx.
  - now rewrite IH.
Qed.

Lemma includes_short (s t : string) :
  (String.length s < String.length t)%nat -> JS.includes s t = false.
Proof.
  intro H. destruct (JS.includes s t) eqn:E; [|reflexivity].
  apply includes_contains in E. destruct E as [a [b ->]].
  exfalso. revert H. clear. induction a as [|c a IH]; simpl.
  - induction t as [|c t IHt]; simpl; [lia|]. intro H. apply IHt. lia.
  - intro H. apply IH. lia.
Qed.

(** X7: criterion 3 looks for the three words anywhere in the identifier: a
    flagged identifier stays flagged whatever is written before or after
    it, and an identifier of fewer than six characters is never flagged. *)
Theorem flagged_anywhere (id : string) :
  (forall a b, flagged id = true -> flagged (a ++ id ++ b) = true)
  /\ ((String.length id < 6)%nat -> flagged id = false).
Proof.
  unfold flagged. split.
  - intros a b H. rewrite !orb_true_iff in *.
    destruct H as [[H|H]|H]; [left; left|left; right|right]; now apply includes_app.
  - intro H. rewrite !includes_short by (simpl; lia). reflexivity.
Qed.

(** * Further properties of the service calls *)

Example id_fallback_examples :
  _validateScenarioData
    (with_id (demo_scenario "demo-001") (Some "stress-1")) = true
  /\ _validateScenarioData
       {| s_scenario_id := Some ""; s_id := Some "stress-1";
          s_network := Some demo_network |} = false
  /\ _validateScenarioData
       {| s_scenario_id := None; s_id := Some "a-distressed-grid";
          s_network := Some demo_network |} = false.
Proof. repeat split. Qed.

Lemma getValidationResults_relayed (id : string) (w : World) (r : Run)
      (body : ValidationResult) :
  get_validation w id = Some body ->
  ApiService.getValidationResults id w r
  = (inl body, logged r [HttpGet ("/scenarios/" ++ id ++ "/validation")])
  /\ ApiServiceAlt.getValidationResults id w r
     = (inl body, logged r [HttpGet ("/scenarios/" ++ id ++ "/validation")]).
Proof.
  intro Hv.
  unfold ApiService.getValidationResults, ApiServiceAlt.getValidationResults, logged.
  run_async. rewrite Hv. split; reflexivity.
Qed.

(** X8: getValidationResults returns the answer of the validation endpoint
    unchanged, after that single request, whenever the endpoint answers, in
    either variant of the service.  When the endpoint is missing, the
    mocking variant always returns, and the rule-based variant returns
    whenever the scenario cannot be fetched (the request is rejected or its
    body is null): no error of these requests escapes. *)
Theorem getValidationResults_relays_or_falls_back
        (id : string) (w : World) (r : Run) :
  (forall body, get_validation w id = Some body ->
      ApiService.getValidationResults id w r
      = (inl body, logged r [HttpGet ("/scenarios/" ++ id ++ "/validation")])
      /\ ApiServiceAlt.getValidationResults id w r
         = (inl body, logged r [HttpGet ("/scenarios/" ++ id ++ "/validation")]))
  /\ (exists res r1, ApiServiceAlt.getValidationResults id w r = (inl res, r1))
  /\ (get_validation w id = None ->
      get_scenario w id = None \/ get_scenario w id = Some None ->
      exists res r1, ApiService.getValidationResults id w r = (inl res, r1)).
Proof.
  split; [|split].
  - apply getValidationResults_relayed.
  - destruct (get_validation w id) as [body|] eqn:Hv.
    + destruct (getValidationResults_relayed id w r body Hv) as [_ E]. eauto.
    + rewrite (getValidationResults_mocked id w r Hv). eauto.
  - intros Hv _. destruct (getValidationResults_simulated id w r Hv) as [r1 E]. eauto.
Qed.

(** X9: when the validation endpoint is missing, the simulated verdict is
    the rule check of the fetched document when there is one (the
    scenarioId passed is then not examined), and otherwise it is true unless
    the scenarioId is flagged. *)
Theorem simulated_verdict_prefers_document (id : string) (w : World) (r : Run) :
  get_validation w id = None ->
  exists res r1,
    ApiService.getValidationResults id w r = (inl res, r1) /\
    scenario_id res = id /\
    is_valid res = match get_scenario w id with
                   | Some (Some s) => _validateScenarioData s
                   | _ => negb (flagged id)
                   end.
Proof.
  intro Hv. destruct (getValidationResults_simulated id w r Hv) as [r1 E].
  eexists; exists r1. split; [exact E|]. split; reflexivity.
Qed.

Lemma simulated_verdict_prefers_document_witness :
  exists res r1,
    ApiService.getValidationResults "stress-test-7"
      (serving (demo_scenario "demo-001")) fresh = (inl res, r1) /\
    scenario_id res = "stress-test-7" /\
    is_valid res = match get_scenario (serving (demo_scenario "demo-001")) "stress-test-7" with
                   | Some (Some s) => _validateScenarioData s
                   | _ => negb (flagged "stress-test-7")
                   end.
Proof.
  apply (simulated_verdict_prefers_document "stress-test-7"
           (serving (demo_scenario "demo-001")) fresh).
  reflexivity.
Defined.

(** X10: for a scenario that can be fetched, the simulated
    getValidationResults and validateScenario return the same result,
    whether validateScenario fetches the document or is handed it. *)
Theorem simulated_results_agree_with_validateScenario
        (id : string) (s : Scenario) (w : World) (r r' : Run) :
  get_validation w id = None ->
  get_scenario w id = Some (Some s) ->
  fst (ApiService.getValidationResults id w r)
  = fst (ApiService.validateScenario id None w r')
  /\ fst (ApiService.getValidationResults id w r)
     = fst (ApiService.validateScenario id (Some s) w r').
Proof.
  intros Hv Hg. destruct (getValidationResults_simulated id w r Hv) as [r1 E].
  rewrite E, Hg, !validateScenario_catch, validateScenario_try_fetch,
    validateScenario_try_data, Hg.
  split; reflexivity.
Qed.

Lemma simulated_results_agree_with_validateScenario_witness :
  fst (ApiService.getValidationResults "demo-001" (serving (demo_scenario "demo-001")) fresh)
  = fst (ApiService.validateScenario "demo-001" None
           (serving (demo_scenario "demo-001")) fresh)
  /\ fst (ApiService.getValidationResults "demo-001"
            (serving (demo_scenario "demo-001")) fresh)
     = fst (ApiService.validateScenario "demo-001" (Some (demo_scenario "demo-001"))
              (serving (demo_scenario "demo-001")) fresh).
Proof.
  apply (simulated_results_agree_with_validateScenario "demo-001"
           (demo_scenario "demo-001")); reflexivity.
Defined.

(** X11: for a scenario that cannot be fetched (the request is rejected or
    its body is null) the two calls part: validateScenario reports it
    invalid, with the Error entry, while the simulated getValidationResults
    reports it valid unless its scenarioId is flagged. *)
Theorem unfetchable_scenario_verdicts_part
        (id : string) (w : World) (r r' : Run) :
  get_validation w id = None ->
  get_scenario w id = None \/ get_scenario w id = Some None ->
  (exists r1, ApiService.validateScenario id None w r' = (inl (error_result id), r1))
  /\ (exists res r1, ApiService.getValidationResults id w r = (inl res, r1)
                     /\ is_valid res = negb (flagged id)).
Proof.
  intros Hv Hg. split.
  - rewrite validateScenario_catch, validateScenario_try_fetch.
    destruct Hg as [-> | ->]; eexists; reflexivity.
  - destruct (getValidationResults_simulated id w r Hv) as [r1 E].
    eexists; exists r1. split; [exact E|].
    destruct Hg as [-> | ->]; reflexivity.
Qed.

Lemma unfetchable_scenario_verdicts_part_witness :
  (exists r1, ApiService.validateScenario "demo-001" None offline fresh
              = (inl (error_result "demo-001"), r1))
  /\ (exists res r1, ApiService.getValidationResults "demo-001" offline fresh
                     = (inl res, r1)
                     /\ is_valid res = negb (flagged "demo-001")).
Proof.
  apply (unfetchable_scenario_verdicts_part "demo-001" offline fresh fresh).
  - reflexivity.
  - left. reflexivity.
Defined.

Lemma posting_validateScenario_run (id : string) (w : World) (r : Run) :
  ApiServiceAlt.validateScenario id w r
  = match get_scenario w id with
    | None =>
        (inr (RequestFailed ("/scenarios/" ++ id)),
         logged r [HttpGet ("/scenarios/" ++ id);
                   ConsoleError ("Error fetching scenario " ++ id ++ ":")
                                (RequestFailed ("/scenarios/" ++ id));
                   ConsoleError ("Error validating scenario " ++ id ++ ":")
                                (RequestFailed ("/scenarios/" ++ id))])
    | Some body =>
        match post_validate w id body with
        | Some res =>
            (inl res,
             logged r [HttpGet ("/scenarios/" ++ id); HttpPost "/scenarios/validate"])
        | None =>
            (inr (RequestFailed "/scenarios/validate"),
             logged r [HttpGet ("/scenarios/" ++ id); HttpPost "/scenarios/validate";
                       ConsoleError ("Error validating scenario " ++ id ++ ":")
                                    (RequestFailed "/scenarios/validate")])
        end
    end.
Proof.
  unfold ApiServiceAlt.validateScenario, ApiServiceAlt.validateScenario_try, logged.
  run_async.
  destruct (get_scenario w id) as [body|]; simpl.
  - destruct (post_validate w id body) as [res|]; simpl;
      now rewrite <- !app_assoc.
  - now rewrite <- !app_assoc.
Qed.

(** X12: the variant of validateScenario that posts to the backend returns
    exactly when both the fetch and the post are answered, and then returns
    the backend's answer for the identifier and the fetched body (a null
    body is posted as it is); otherwise it throws the error of the request
    that failed, and after a rejected fetch nothing is posted. *)
Theorem posting_validateScenario_outcome (id : string) (w : World) (r : Run) :
  fst (ApiServiceAlt.validateScenario id w r)
  = match get_scenario w id with
    | None => inr (RequestFailed ("/scenarios/" ++ id))
    | Some body =>
        match post_validate w id body with
        | Some res => inl res
        | None => inr (RequestFailed "/scenarios/validate")
        end
    end
  /\ (get_scenario w id = None ->
      forall url, In (HttpPost url) (events (snd (ApiServiceAlt.validateScenario id w r))) ->
                  In (HttpPost url) (events r)).
Proof.
  rewrite posting_validateScenario_run. split.
  - destruct (get_scenario w id) as [body|]; [|reflexivity].
    destruct (post_validate w id body); reflexivity.
  - intros -> url. simpl. rewrite in_app_iff.
    intros [H|[H|[H|[H|[]]]]]; [exact H|discriminate..].
Qed.

Lemma validateScenario_run_requests (id : string) (data : option Scenario)
      (w : World) (r : Run) :
  exists new,
    snd (ApiService.validateScenario id data w r) = logged r new /\
    requests new = match data with
                   | Some _ => []
                   | None => [HttpGet ("/scenarios/" ++ id)]
                   end.
Proof.
  rewrite validateScenario_catch. destruct data as [s|].
  - rewrite validateScenario_try_data. exists []. unfold logged. simpl.
    rewrite app_nil_r. now destruct r.
  - rewrite validateScenario_try_fetch.
    destruct (get_scenario w id) as [[s|]|]; unfold logged; simpl;
      rewrite <- ?app_assoc; eexists; (split; [reflexivity|reflexivity]).
Qed.

Lemma getValidationResults_run_requests (id : string) (w : World) (r : Run) :
  exists new,
    snd (ApiService.getValidationResults id w r) = logged r new /\
    requests new = match get_validation w id with
                   | Some _ => [HttpGet ("/scenarios/" ++ id ++ "/validation")]
                   | None => [HttpGet ("/scenarios/" ++ id ++ "/validation");
                              HttpGet ("/scenarios/" ++ id)]
                   end.
Proof.
  destruct (get_validation w id) as [body|] eqn:Hv.
  - destruct (getValidationResults_relayed id w r body Hv) as [E _]. rewrite E.
    eexists. split; reflexivity.
  - unfold ApiService.getValidationResults, logged. run_async. rewrite Hv. simpl.
    destruct (get_scenario w id) as [[s|]|]; simpl;
      rewrite <- ?app_assoc; eexists; (split; [reflexivity|reflexivity]).
Qed.

(** X13: what the rule-based service asks of the outside.  validateScenario
    sends no request when it is handed the document and one GET of the
    scenario otherwise; getValidationResults sends one GET of the validation
    and, when that is rejected, one GET of the scenario.  Neither ever
    posts, and neither draws a random number. *)
Theorem rule_based_service_requests
        (id : string) (data : option Scenario) (w : World) (r : Run) :
  (exists new,
     snd (ApiService.validateScenario id data w r)
     = mkRun (events r ++ new) (draws r) /\
     requests new = match data with
                    | Some _ => []
                    | None => [HttpGet ("/scenarios/" ++ id)]
                    end)
  /\ (exists new,
     snd (ApiService.getValidationResults id w r)
     = mkRun (events r ++ new) (draws r) /\
     requests new = match get_validation w id with
                    | Some _ => [HttpGet ("/scenarios/" ++ id ++ "/validation")]
                    | None => [HttpGet ("/scenarios/" ++ id ++ "/validation");
                               HttpGet ("/scenarios/" ++ id)]
                    end).
Proof.
  split.
  - exact (validateScenario_run_requests id data w r).
  - exact (getValidationResults_run_requests id w r).
Qed.

(** * Properties of [generateScenario] *)

Module GenerateScenarioFacts.

Import GenerateScenario.

Section WithBodies.

Context {Extra Body : Type}.

(** X14: generateScenario posts the parameters whole, together with
    include_context (true only when the parameters do not say, so a false is
    kept) and similarity_threshold (0.7 when the parameters do not say or
    say 0, so a threshold of 0 cannot be asked for), and it hands back what
    the post answers: the body, or the same error thrown again. *)
Theorem generateScenario_request_and_answer
        (post : RequestData Extra -> Body + AxiosError Body)
        (parameters : Parameters Extra) :
  fst (generateScenario post parameters) = post (requestData parameters)
  /\ rd_parameters (requestData parameters) = parameters
  /\ (rd_include_context (requestData parameters) = false
      <-> p_include_context parameters = Some false)
  /\ (forall v, p_similarity_threshold parameters = Some v -> ~ (v == 0)%Q ->
                rd_similarity_threshold (requestData parameters) = v)
  /\ (falsy_num (p_similarity_threshold parameters) ->
      rd_similarity_threshold (requestData parameters) = 0.7%Q)
  /\ ~ (rd_similarity_threshold (requestData parameters) == 0)%Q.
Proof.
  repeat split.
  - unfold generateScenario.
    destruct (post (requestData parameters)) as [data|error]; reflexivity.
  - simpl. destruct (p_include_context parameters) as [[|]|]; congruence.
  - simpl. intros ->. reflexivity.
  - intros v Hv Hnz. simpl. now rewrite Hv, (or_num_truthy v) by exact Hnz.
  - intro Hf. simpl. now rewrite (or_num_falsy _ _ Hf).
  - simpl. destruct (p_similarity_threshold parameters) as [x|]; simpl.
    + unfold JS.truthy_num. destruct (Qeq_bool x 0) eqn:Ex; simpl.
      * discriminate.
      * intro H. apply Qeq_bool_iff in H. congruence.
    + discriminate.
Qed.

End WithBodies.

End GenerateScenarioFacts.

(** * Properties of the generation page *)

Module GeneratePageFacts.

Import GeneratePage.

Local Open Scope Z_scope.

(** What every state of the page satisfies. *)
Definition Inv (s : Page) : Prop :=
  0 <= progress s <= 100
  /\ (10 | progress s)
  /\ (isGenerating s = true <-> awaiting s <> None)
  /\ (isGenerating s = true -> error s = None /\ 10 <= progress s <= 90)
  /\ (activeTab s = "result" -> result s <> None)
  /\ (progress s = 0 ->
      isGenerating s = false /\ error s = None /\ result s = None
      /\ intervals s = []).

Lemma Inv_initial : Inv initial.
Proof.
  unfold Inv, initial. simpl.
  repeat split; try lia; try discriminate; try congruence.
  exists 0. reflexivity.
Qed.

(** Closes the routine parts of the invariant after a transition; [k] is
    the tenth of the progress before it. *)
Ltac inv_routine k :=
  repeat split; intros; try lia; try tauto; try congruence; try discriminate;
  try match goal with
      | |- (10 | _) =>
          first [ exists k; lia | exists (k + 1); lia | exists 1; lia | exists 10; lia ]
      end.

Lemma Inv_step (s s' : Page) : Inv s -> step s s' -> Inv s'.
Proof.
  intros (Hb & [k Hk] & Hw & Hg & Ht & Hz) Hstep.
  destruct Hstep as [s Hs|s i Hi|s i response Hi|s i message Hi|s key Hkey Hd|s].
  - unfold Inv, handleSubmit_begin. simpl. inv_routine k.
  - unfold Inv, progress_tick.
    destruct (Z.leb_spec 90 (progress s)) as [H90|H90]; simpl; inv_routine k.
  - unfold Inv, handleSubmit_resolved.
    destruct response as [r|]; [destruct (JS.or_str (resp_error r) None)|]; simpl;
      inv_routine k.
  - unfold Inv, handleSubmit_rejected. simpl.
    assert (G : isGenerating s = true) by (apply Hw; congruence).
    destruct (Hg G) as [_ Hp].
    inv_routine k.
  - unfold Inv, setActiveTab. simpl. inv_routine k.
    subst key. unfold tab_disabled in Hd. simpl in Hd.
    destruct (result s); [discriminate|discriminate].
  - unfold Inv, toggleAdvancedMode. simpl. inv_routine k.
Qed.

Lemma reachable_Inv (s : Page) : reachable s -> Inv s.
Proof.
  induction 1 as [|s s' _ IH Hstep]; [apply Inv_initial|].
  exact (Inv_step s s' IH Hstep).
Qed.

(** The page after the form is submitted once, and after two seconds more. *)
Definition submitted : Page := handleSubmit_begin initial.

Definition submitted_2s : Page := progress_tick 0 (progress_tick 0 submitted).

Lemma reachable_submitted : reachable submitted.
Proof.
  apply (reachable_step initial); [apply reachable_initial|].
  now apply step_submit.
Qed.

Lemma reachable_submitted_2s : reachable submitted_2s.
Proof.
  apply (reachable_step (progress_tick 0 submitted)).
  - apply (reachable_step submitted); [apply reachable_submitted|].
    apply step_tick. simpl. tauto.
  - apply step_tick. simpl. tauto.
Qed.

(** X15: whatever happens to the page, the progress shown is one of 0, 10,
    ..., 100; while a generation runs it stays between 10 and 90 and no
    error is shown. *)
Theorem progress_stays_in_bounds (s : Page) :
  reachable s ->
  0 <= progress s <= 100
  /\ progress s mod 10 = 0
  /\ (isGenerating s = true -> 10 <= progress s <= 90 /\ error s = None).
Proof.
  intro H. destruct (reachable_Inv s H) as (Hb & [k Hk] & _ & Hg & _).
  split; [exact Hb|]. split.
  - rewrite Hk. apply Z_mod_mult.
  - intro G. apply Hg in G. tauto.
Qed.

Lemma progress_stays_in_bounds_witness :
  0 <= progress submitted_2s <= 100
  /\ progress submitted_2s mod 10 = 0
  /\ (isGenerating submitted_2s = true ->
      10 <= progress submitted_2s <= 90 /\ error submitted_2s = None).
Proof.
  apply (progress_stays_in_bounds submitted_2s). exact reachable_submitted_2s.
Defined.

(** X16: apart from a new submission, which starts again at 10, nothing that
    happens to the page lowers the progress shown. *)
Theorem progress_never_lowered (s s' : Page) :
  reachable s -> step s s' ->
  progress s <= progress s'
  \/ (isGenerating s = false /\ s' = handleSubmit_begin s).
Proof.
  intros Hr Hstep. destruct (reachable_Inv s Hr) as (Hb & _).
  destruct Hstep as [s Hs|s i Hi|s i response Hi|s i message Hi|s key Hk Hd|s].
  - right. now split.
  - left. unfold progress_tick.
    destruct (Z.leb_spec 90 (progress s)); simpl; lia.
  - left. unfold handleSubmit_resolved.
    destruct response as [r|]; [destruct (JS.or_str (resp_error r) None)|]; simpl; lia.
  - left. simpl. lia.
  - left. simpl. lia.
  - left. simpl. lia.
Qed.

Lemma progress_never_lowered_witness :
  progress submitted <= progress (progress_tick 0 submitted)
  \/ (isGenerating submitted = false
      /\ progress_tick 0 submitted = handleSubmit_begin submitted).
Proof.
  apply (progress_never_lowered submitted (progress_tick 0 submitted)).
  - exact reachable_submitted.
  - apply step_tick. simpl. tauto.
Defined.

(** X17: the progress tab is disabled exactly as long as the progress is 0,
    and as long as the progress is 0 nothing has been submitted: nothing
    runs, and there is no error, no result and no timer. *)
Theorem progress_tab_disabled_until_submitted (s : Page) :
  reachable s ->
  (tab_disabled "progress" s = true <-> progress s = 0)
  /\ (progress s = 0 ->
      isGenerating s = false /\ error s = None /\ result s = None
      /\ intervals s = [] /\ awaiting s = None).
Proof.
  intro H. destruct (reachable_Inv s H) as (_ & _ & Hw & Hg & _ & Hz).
  split.
  - unfold tab_disabled. simpl.
    rewrite andb_true_iff, negb_true_iff, Z.eqb_eq. split; [tauto|].
    intro H0. split; [|exact H0]. apply Hz in H0. tauto.
  - intro H0. destruct (Hz H0) as (Hg0 & He & Hr & Hi).
    repeat split; try assumption.
    destruct (awaiting s) as [i|] eqn:Ha; [|reflexivity].
    assert (G : isGenerating s = true) by (apply Hw; discriminate). congruence.
Qed.

Lemma progress_tab_disabled_until_submitted_witness :
  (tab_disabled "progress" submitted_2s = true <-> progress submitted_2s = 0)
  /\ (progress submitted_2s = 0 ->
      isGenerating submitted_2s = false /\ error submitted_2s = None
      /\ result submitted_2s = None
      /\ intervals submitted_2s = [] /\ awaiting submitted_2s = None).
Proof.
  apply (progress_tab_disabled_until_submitted submitted_2s).
  exact reachable_submitted_2s.
Defined.

Lemma clearInterval_not_in (i : nat) (l : list nat) : ~ In i (clearInterval i l).
Proof. unfold clearInterval. apply remove_In. Qed.

(** X18: when the generator answers with a response that carries no error,
    the page ends at progress 100 on the result tab with that response as
    its result, nothing running, no error shown and the timer of the call
    cleared. *)
Theorem answered_generation_shows_result
        (s : Page) (i : nat) (response : Response) :
  reachable s -> awaiting s = Some i ->
  JS.or_str (resp_error response) None = None ->
  let s' := handleSubmit_resolved i (Some response) s in
  step s s'
  /\ progress s' = 100
  /\ activeTab s' = "result"
  /\ result s' = Some response
  /\ isGenerating s' = false
  /\ error s' = None
  /\ ~ In i (intervals s').
Proof.
  intros Hr Hi He. cbv zeta.
  destruct (reachable_Inv s Hr) as (_ & _ & Hw & Hg & _).
  assert (G : isGenerating s = true) by (apply Hw; congruence).
  destruct (Hg G) as [Herr _].
  split; [now apply step_resolved|].
  unfold handleSubmit_resolved. rewrite He. simpl.
  repeat split; try assumption. apply clearInterval_not_in.
Qed.

Lemma answered_generation_shows_result_witness :
  let s' := handleSubmit_resolved 0 (Some (mkResponse (Some "s-1") None)) submitted_2s in
  step submitted_2s s'
  /\ progress s' = 100
  /\ activeTab s' = "result"
  /\ result s' = Some (mkResponse (Some "s-1") None)
  /\ isGenerating s' = false
  /\ error s' = None
  /\ ~ In 0%nat (intervals s').
Proof.
  apply (answered_generation_shows_result submitted_2s 0
           (mkResponse (Some "s-1") None)).
  - exact reachable_submitted_2s.
  - reflexivity.
  - reflexivity.
Defined.

(** X19: when the generator throws, the page shows an error: the message
    of the exception, or "Failed to generate scenario" when the exception
    has no message or an empty one.  Nothing runs any more, but the result
    of an earlier generation, the tab and the progress stay, and the timer
    of the call is not cleared: it can still fire and, below 90, raises the
    progress by 10. *)
Theorem thrown_generation_leaves_timer
        (s : Page) (i : nat) (message : option string) :
  reachable s -> awaiting s = Some i -> In i (intervals s) ->
  let s' := handleSubmit_rejected message s in
  step s s'
  /\ isGenerating s' = false
  /\ (forall m, message = Some m -> m <> "" -> error s' = Some m)
  /\ (message = None \/ message = Some "" ->
      error s' = Some "Failed to generate scenario")
  /\ result s' = result s
  /\ activeTab s' = activeTab s
  /\ progress s' = progress s
  /\ In i (intervals s')
  /\ step s' (progress_tick i s')
  /\ (progress s' < 90 -> progress (progress_tick i s') = progress s' + 10).
Proof.
  intros Hr Hi Hin. cbv zeta.
  split; [now apply (step_rejected s i)|].
  split; [reflexivity|].
  split; [|split].
  - intros m -> Hm. simpl. destruct m; [congruence|reflexivity].
  - intros [-> | ->]; reflexivity.
  - repeat split; try exact Hin.
    + apply step_tick. exact Hin.
    + intro Hlt. unfold progress_tick.
      destruct (Z.leb_spec 90 (progress (handleSubmit_rejected message s)));
        [lia|reflexivity].
Qed.

Lemma thrown_generation_leaves_timer_witness :
  (let s' := handleSubmit_rejected (Some "Network Error") submitted_2s in
   step submitted_2s s'
   /\ isGenerating s' = false
   /\ (forall m, Some "Network Error" = Some m -> m <> "" -> error s' = Some m)
   /\ (Some "Network Error" = None \/ Some "Network Error" = Some "" ->
       error s' = Some "Failed to generate scenario")
   /\ result s' = result submitted_2s
   /\ activeTab s' = activeTab submitted_2s
   /\ progress s' = progress submitted_2s
   /\ In 0%nat (intervals s')
   /\ step s' (progress_tick 0 s')
   /\ (progress s' < 90 -> progress (progress_tick 0 s') = progress s' + 10))
  /\ (let s' := handleSubmit_rejected None submitted_2s in
      step submitted_2s s'
      /\ isGenerating s' = false
      /\ (forall m, None = Some m -> m <> "" -> error s' = Some m)
      /\ (@None string = None \/ None = Some "" ->
          error s' = Some "Failed to generate scenario")
      /\ result s' = result submitted_2s
      /\ activeTab s' = activeTab submitted_2s
      /\ progress s' = progress submitted_2s
      /\ In 0%nat (intervals s')
      /\ step s' (progress_tick 0 s')
      /\ (progress s' < 90 -> progress (progress_tick 0 s') = progress s' + 10)).
Proof.
  split.
  - apply (thrown_generation_leaves_timer submitted_2s 0 (Some "Network Error")).
    + exact reachable_submitted_2s.
    + reflexivity.
    + simpl. tauto.
  - apply (thrown_generation_leaves_timer submitted_2s 0 None).
    + exact reachable_submitted_2s.
    + reflexivity.
    + simpl. tauto.
Defined.

(** X20: when the generator answers with a response that carries an error,
    or with null, the page ends at progress 100 with an error shown and
    nothing running; the timer of the call is cleared, and the result of an
    earlier generation and the active tab stay as they were. *)
Theorem failed_answer_shows_error
        (s : Page) (i : nat) (response : option Response) :
  awaiting s = Some i ->
  (response = None
   \/ exists r e, response = Some r /\ JS.or_str (resp_error r) None = Some e) ->
  let s' := handleSubmit_resolved i response s in
  step s s'
  /\ progress s' = 100
  /\ isGenerating s' = false
  /\ (exists e, error s' = Some e /\ e <> "")
  /\ (forall r, response = Some r -> error s' = resp_error r)
  /\ result s' = result s
  /\ activeTab s' = activeTab s
  /\ ~ In i (intervals s').
Proof.
  intros Hi Hresp. cbv zeta.
  split; [now apply step_resolved|].
  unfold handleSubmit_resolved.
  destruct Hresp as [-> | [r [e [-> He]]]].
  - simpl. repeat split.
    + eexists. split; [reflexivity|discriminate].
    + intros r Hr. discriminate.
    + apply clearInterval_not_in.
  - rewrite He. simpl.
    assert (Hre : resp_error r = Some e /\ e <> "").
    { unfold JS.or_str in He. destruct (resp_error r) as [[|c x]|]; simpl in He;
        try discriminate. injection He as <-. split; [reflexivity|discriminate]. }
    destruct Hre as [Hre Hne].
    repeat split.
    + exists e. now split.
    + intros r' Hr'. injection Hr' as <-. now rewrite Hre.
    + apply clearInterval_not_in.
Qed.

Lemma failed_answer_shows_error_witness :
  let s' := handleSubmit_resolved 0
              (Some (mkResponse None (Some "Model unavailable"))) submitted in
  step submitted s'
  /\ progress s' = 100
  /\ isGenerating s' = false
  /\ (exists e, error s' = Some e /\ e <> "")
  /\ (forall r, Some (mkResponse None (Some "Model unavailable")) = Some r ->
                error s' = resp_error r)
  /\ result s' = result submitted
  /\ activeTab s' = activeTab submitted
  /\ ~ In 0%nat (intervals s').
Proof.
  apply (failed_answer_shows_error submitted 0
           (Some (mkResponse None (Some "Model unavailable")))).
  - reflexivity.
  - right. eexists _, _. split; reflexivity.
Defined.

Lemma clearInterval_twice (i : nat) (l : list nat) :
  clearInterval i (clearInterval i l) = clearInterval i l.
Proof. unfold clearInterval. apply notin_remove, remove_In. Qed.

Lemma in_clearInterval (j i : nat) (l : list nat) :
  In j (clearInterval i l) <-> In j l /\ j <> i.
Proof.
  unfold clearInterval. split.
  - apply in_remove.
  - intros [H1 H2]. now apply in_in_remove.
Qed.

(** After [k] ticks since the submission, whatever follows. *)
Lemma ticks_from (l : list nat) (s : Page) (k : nat) :
  progress s = Z.min (10 + 10 * Z.of_nat k) 90 ->
  progress (ticks l s) = Z.min (10 + 10 * Z.of_nat (k + List.length l)) 90
  /\ (forall j, In j (intervals (ticks l s))
                <-> In j (intervals s) /\ ~ In j (skipn (8 - k) l)).
Proof.
  revert s k. induction l as [|i l IH]; intros s k Hp.
  - simpl. rewrite Nat.add_0_r. split; [exact Hp|].
    intro j. rewrite skipn_nil. simpl. tauto.
  - change (ticks (i :: l) s) with (ticks l (progress_tick i s)).
    destruct (Z.leb_spec 90 (progress s)) as [H90|H90].
    + assert (Hk : (8 <= k)%nat) by lia.
      assert (Hp1 : progress (progress_tick i s)
                    = Z.min (10 + 10 * Z.of_nat (S k)) 90).
      { unfold progress_tick. apply Z.leb_le in H90. rewrite H90. simpl progress. lia. }
      destruct (IH _ _ Hp1) as [IHp IHi]. split.
      * rewrite IHp. simpl List.length. f_equal. lia.
      * intro j. rewrite IHi.
        replace (8 - S k)%nat with 0%nat by lia.
        replace (8 - k)%nat with 0%nat by lia.
        unfold progress_tick. apply Z.leb_le in H90. rewrite H90.
        cbn [intervals skipn]. rewrite in_clearInterval. simpl In.
        split; [intros [[H1 H2] H3]|intros [H1 H2]]; repeat split; auto;
          intuition congruence.
    + assert (Hk : (k < 8)%nat) by lia.
      assert (Hp1 : progress (progress_tick i s)
                    = Z.min (10 + 10 * Z.of_nat (S k)) 90).
      { unfold progress_tick. apply Z.leb_gt in H90. rewrite H90. simpl progress. lia. }
      destruct (IH _ _ Hp1) as [IHp IHi]. split.
      * rewrite IHp. simpl List.length. f_equal. lia.
      * intro j. rewrite IHi.
        replace (8 - k)%nat with (S (8 - S k)) by lia.
        unfold progress_tick. apply Z.leb_gt in H90. rewrite H90.
        cbn [intervals skipn]. tauto.
Qed.

(** X21: while handleSubmit waits for the generator, after n ticks in all,
    of its own timer or of timers left by earlier calls, the progress is
    10 + 10 n capped at 90; a timer stays set exactly as long as none of
    its ticks comes after the first eight ticks.  With only the timer of
    the call firing, it is still set after n ticks exactly when n <= 8. *)
Theorem progress_after_ticks (s0 : Page) (l : list nat) :
  let s := handleSubmit_begin s0 in
  progress (ticks l s) = Z.min (10 + 10 * Z.of_nat (List.length l)) 90
  /\ (forall j, In j (intervals (ticks l s))
                <-> In j (intervals s) /\ ~ In j (skipn 8 l))
  /\ (forall n, l = repeat (next_interval s0) n ->
                (In (next_interval s0) (intervals (ticks l s)) <-> (n <= 8)%nat)).
Proof.
  cbv zeta.
  destruct (ticks_from l (handleSubmit_begin s0) 0 eq_refl) as [Hp Hi].
  split; [exact Hp|]. split; [exact Hi|].
  intros n ->. rewrite Hi. cbn [intervals handleSubmit_begin].
  rewrite in_app_iff. split.
  - intros [_ Hnot].
    destruct (Nat.le_gt_cases n 8) as [Hle|Hgt]; [exact Hle|].
    exfalso. apply Hnot.
    replace n with (8 + (n - 8))%nat by lia.
    rewrite repeat_app, skipn_app, repeat_length, Nat.sub_diag. simpl skipn at 2.
    apply in_or_app. right.
    destruct (n - 8)%nat as [|m] eqn:E; [lia|]. simpl. tauto.
  - intro Hle. split; [right; simpl; tauto|].
    rewrite skipn_all2 by (rewrite repeat_length; exact Hle). simpl. tauto.
Qed.

End GeneratePageFacts.
